(** * geopyspark: pyramid tile lookup (render.py) and the TMS bridge (tms.py)

    A shallow embedding of [geopyspark/geotrellis/render.py] and
    [geopyspark/geotrellis/tms.py].  Python integers are [Z], optional
    arguments are [option], exceptions are an inductive type, and every
    method is a computation in a small state-and-exception monad whose
    state is either the object being mutated ([TMS]) or the log of the
    calls made to the JVM-side engine ([PngRDD]). *)

From Stdlib Require Import ZArith String Ascii List Lia DecimalString.
From stdpp Require Import base option list gmap strings.
Import ListNotations.
Local Open Scope Z_scope.

(** ** Python values, exceptions and control flow *)

Module Py.

(** The exception classes that occur in the two files, plus the ones the
    collaborators can raise.  [KeyboardInterrupt], [SystemExit] and
    [GeneratorExit] derive from [BaseException] only. *)
Inductive exn : Type :=
| ValueError (args : list string)
| IndexError (msg : string)
| AttributeError (msg : string)
| TypeError (msg : string)
| NameError (name : string)
| RuntimeError (arg : option string)
| OSError (msg : string)
| Py4JError (msg : string)
| UserError (msg : string)
| KeyboardInterrupt
| SystemExit (code : Z)
| GeneratorExit.

(** [isinstance(e, Exception)]. *)
Definition isinstance_Exception (e : exn) : bool :=
  match e with
  | KeyboardInterrupt | SystemExit _ | GeneratorExit => false
  | _ => true
  end.

Inductive outcome (A : Type) : Type :=
| Return (a : A)
| Raise (e : exn).
Arguments Return {A} a.
Arguments Raise {A} e.

(** A statement sequence running against a state [S]. *)
Definition M (S A : Type) : Type := S -> outcome A * S.

Definition ret {S A} (a : A) : M S A := fun s => (Return a, s).
Definition raise {S A} (e : exn) : M S A := fun s => (Raise e, s).
Definition bind {S A B} (m : M S A) (k : A -> M S B) : M S B :=
  fun s => match m s with
           | (Return a, s') => k a s'
           | (Raise e, s') => (Raise e, s')
           end.
Definition get {S} : M S S := fun s => (Return s, s).
Definition modify {S} (f : S -> S) : M S unit := fun s => (Return tt, f s).
Definition lift {S A} (o : outcome A) : M S A := fun s => (o, s).

(** [try: body / except: handler] (a bare [except] catches everything). *)
Definition try_except {S A} (body : M S A) (handler : exn -> M S A) : M S A :=
  fun s => match body s with
           | (Return a, s') => (Return a, s')
           | (Raise e, s') => handler e s'
           end.

(** [try: body / except Exception: handler]. *)
Definition try_except_Exception {S A} (body : M S A) (handler : exn -> M S A)
  : M S A :=
  try_except body
    (fun e => if isinstance_Exception e then handler e else raise e).

Fixpoint mapM {S A B} (f : A -> M S B) (l : list A) : M S (list B) :=
  match l with
  | [] => ret []
  | x :: l' => bind (f x) (fun y => bind (mapM f l') (fun ys => ret (y :: ys)))
  end.

(** Truth test of an optional integer argument: [Some z] when the value is
    truthy (an integer other than 0), [None] when it is falsy ([None] or 0). *)
Definition truthy (o : option Z) : option Z :=
  match o with
  | Some z => if z =? 0 then None else Some z
  | None => None
  end.

(** [l[i]] on a list or tuple: a negative index counts from the end. *)
Definition getitem {A} (l : list A) (i : Z) : outcome A :=
  let n := Z.of_nat (length l) in
  let j := if i <? 0 then n + i else i in
  if (j <? 0) || (n <=? j) then Raise (IndexError "list index out of range")
  else match l !! Z.to_nat j with
       | Some x => Return x
       | None => Raise (IndexError "list index out of range")
       end.

(** [x in l] for a list of strings. *)
Definition contains_str (x : string) (l : list string) : bool :=
  existsb (String.eqb x) l.

(** [str(x)] for an integer, and for values that may be [None]. *)
Definition str_int (z : Z) : string := NilZero.string_of_int (Z.to_int z).
Definition str_opt_int (o : option Z) : string :=
  match o with Some z => str_int z | None => "None" end.
Definition str_opt_str (o : option string) : string :=
  match o with Some s => s | None => "None" end.

Definition is_brace (c : ascii) : bool :=
  Ascii.eqb c "{" || Ascii.eqb c "}".

(** [tpl.format(a0, a1, ...)] for templates with automatic fields [{}] and the
    escapes [{{] and [}}]; [None] stands for the errors Python raises on a
    lone brace, a named field or a missing argument. *)
Fixpoint format (tpl : string) (args : list string) : option string :=
  match tpl with
  | EmptyString => Some EmptyString
  | String c r =>
      match r with
      | String d r' =>
          if Ascii.eqb c "{" && Ascii.eqb d "{" then
            option_map (String "{") (format r' args)
          else if Ascii.eqb c "}" && Ascii.eqb d "}" then
            option_map (String "}") (format r' args)
          else if Ascii.eqb c "{" && Ascii.eqb d "}" then
            match args with
            | a :: args' => option_map (String.append a) (format r' args')
            | [] => None
            end
          else if is_brace c then None
          else option_map (String c) (format r args)
      | EmptyString =>
          if is_brace c then None else Some (String c EmptyString)
      end
  end.

(** [s.startswith(p)]. *)
Definition startswith (p s : string) : bool := String.prefix p s.

(** [sub in s] for strings. *)
Fixpoint contains (sub s : string) : bool :=
  String.prefix sub s ||
  match s with
  | EmptyString => false
  | String _ s' => contains sub s'
  end.

End Py.

Import Py.

Declare Scope py_scope.
Delimit Scope py_scope with py.
Notation "x <- c ;; k" := (bind c (fun x => k))
  (at level 100, c at next level, right associativity) : py_scope.
Notation "c ;; k" := (bind c (fun _ => k))
  (at level 100, right associativity) : py_scope.
Local Open Scope py_scope.

(** ** render.py *)

Definition bytes : Type := list Byte.byte.

(** A handle on a JVM-side layer. *)
Definition SRDD : Type := N.

Module Key.
Record t : Type := { col : Z; row : Z }.
End Key.
Record Bounds : Type := { minKey : Key.t; maxKey : Key.t }.
Record Metadata : Type := { bounds : Bounds }.

(** The JVM-side [PngRDD] a Python [PngRDD] keeps one of per level: the
    rendered images of every key, in the order the source holds them. *)
Record JPngRDD : Type := { png_handle : SRDD; png_tiles : Z -> Z -> list bytes }.

Module TiledRasterRDD.
Record t : Type := {
  geopysc : N;
  rdd_type : string;
  layer_metadata : Metadata;
  zoom_level : option Z;
  srdd : SRDD
}.
End TiledRasterRDD.

(** What render.py imports and calls but does not define: the constants of
    [geopyspark.geotrellis.constants], the [reproject] and [pyramid] methods
    of a [TiledRasterRDD], and the JVM's [PngRDD.asSingleband]. *)
Record Engine : Type := {
  RESAMPLE_METHODS : list string;
  NEARESTNEIGHBOR : string;
  ZOOM : string;
  reproject : TiledRasterRDD.t -> string -> string -> TiledRasterRDD.t;
  pyramid : TiledRasterRDD.t -> Z -> Z -> string -> list TiledRasterRDD.t;
  asSingleband : SRDD -> string -> JPngRDD
}.

(** The calls that reach the engine, in the order they are made. *)
Inductive event : Type :=
| EvReproject (layer : SRDD) (crs scheme : string)
| EvPyramid (layer : SRDD) (start_zoom end_zoom : Z) (resample_method : string)
| EvAsSingleband (layer : SRDD) (ramp_name : string)
| EvLookup (png : SRDD) (col row : Z).

Definition trace : Type := list event.

Definition emit (ev : event) : M trace unit := modify (fun t => t ++ [ev]).

(** The names bound at module level in render.py. *)
Definition module_names : list string :=
  ["RESAMPLE_METHODS"; "NEARESTNEIGHBOR"; "ZOOM"; "ColorRamp"; "PngRDD"].

(** Calling [name(...)] where [name] is neither a local nor a builtin: the
    name is looked up among the module's globals. *)
Definition call_global {S} (name : string) : M S unit :=
  if contains_str name module_names then ret tt else raise (NameError name).

Module PngRDD.

Record t : Type := {
  geopysc : N;
  rdd_type : string;
  layer_metadata : list Metadata;
  max_zoom : option Z;
  pngpyramid : list JPngRDD;
  debug : bool
}.

Section WithEngine.
Variable E : Engine.

Definition __init__ (pyramid : list TiledRasterRDD.t) (ramp_name : string)
  (persist_mode : string) (debug : bool) : M trace t :=
  level0 <- lift (getitem pyramid 0) ;;
  pngs <- mapM (fun layer =>
                  emit (EvAsSingleband (TiledRasterRDD.srdd layer) ramp_name) ;;
                  ret (asSingleband E (TiledRasterRDD.srdd layer) ramp_name))
               pyramid ;;
  let self :=
    {| geopysc := TiledRasterRDD.geopysc level0;
       rdd_type := TiledRasterRDD.rdd_type level0;
       layer_metadata := map TiledRasterRDD.layer_metadata pyramid;
       max_zoom := TiledRasterRDD.zoom_level level0;
       pngpyramid := pngs;
       debug := debug |} in
  call_global "set_persist" ;;
  ret self.

Definition makePyramid (tiledrdd : TiledRasterRDD.t) (ramp_name : string)
  (start_zoom : option Z) (end_zoom : Z) (resample_method : string)
  (persist_mode : string) (debug : bool) : M trace t :=
  if negb (contains_str resample_method (RESAMPLE_METHODS E)) then
    raise (ValueError [resample_method; " Is not a known resample method."])
  else
    emit (EvReproject (TiledRasterRDD.srdd tiledrdd) "EPSG:3857" (ZOOM E)) ;;
    let reprojected := reproject E tiledrdd "EPSG:3857" (ZOOM E) in
    start_zoom <-
      match truthy start_zoom with
      | Some z => ret z
      | None =>
          match truthy (TiledRasterRDD.zoom_level reprojected) with
          | Some z => ret z
          | None =>
              raise (AttributeError
                "No initial zoom level is available; Please provide a value for start_zoom")
          end
      end ;;
    emit (EvPyramid (TiledRasterRDD.srdd reprojected) start_zoom end_zoom
            resample_method) ;;
    let pyramid := pyramid E reprojected start_zoom end_zoom resample_method in
    __init__ pyramid ramp_name persist_mode debug.

End WithEngine.

(** Lines 94-97 of [lookup]: the index of the level a zoom stands for. *)
Definition level_index (self : t) (zoom : option Z) : outcome Z :=
  match truthy zoom with
  | None => Return 0
  | Some zoom =>
      match max_zoom self with
      | Some max_zoom => Return (max_zoom - zoom)
      | None => Raise (TypeError "unsupported operand type(s) for -")
      end
  end.

Definition lookup (self : t) (col row : Z) (zoom : option Z) : M trace (list bytes) :=
  idx <- lift (level_index self zoom) ;;
  pngrdd <- lift (getitem (pngpyramid self) idx) ;;
  metadata <- lift (getitem (layer_metadata self) idx) ;;
  let bounds := bounds metadata in
  let min_col := Key.col (minKey bounds) in
  let min_row := Key.row (minKey bounds) in
  let max_col := Key.col (maxKey bounds) in
  let max_row := Key.row (maxKey bounds) in
  if (col <? min_col) || (col >? max_col) then
    raise (IndexError "column out of bounds")
  else if (row <? min_row) || (row >? max_row) then
    raise (IndexError "row out of bounds")
  else
    emit (EvLookup (png_handle pngrdd) col row) ;;
    let result := png_tiles pngrdd col row in
    ret (map (fun bytes => bytes) result).

End PngRDD.

(** ** tms.py *)

(** The cells of a decoded tile: bands, rows, columns. *)
Definition Cells : Type := list (list (list Z)).
Record Tile : Type := { cells : Cells }.

(** Whatever a display function returns; [save fmt] is the content that
    [image.save(bio, fmt)] leaves in the buffer, or the exception it raises. *)
Record Image : Type := { save : string -> outcome bytes }.

(** A display function receives one array (single source) or a list of
    arrays (several sources). *)
Inductive CallArg : Type :=
| ArgCells (c : Cells)
| ArgList (cs : list Cells).

Definition Callable : Type := CallArg -> outcome Image.

(** What [print_exc] has written: the exceptions whose trace was printed. *)
Definition stderr : Type := list exn.

Definition print_exc (e : exn) : M stderr unit := modify (fun log => log ++ [e]).

Module TileRender.

Record t : Type := { render_function : Callable }.

Definition requiresEncoding (self : t) : bool := true.

Section WithDecoder.
Variable multibandtile_decoder : bytes -> outcome Tile.

Definition renderEncoded (self : t) (scala_array : bytes) : M stderr (option bytes) :=
  try_except_Exception
    (tile <- lift (multibandtile_decoder scala_array) ;;
     let cells := cells tile in
     image <- lift (render_function self (ArgCells cells)) ;;
     png <- lift (save image "PNG") ;;
     ret (Some png))
    (fun e => print_exc e ;; ret None).

End WithDecoder.
End TileRender.

Module TileCompositer.

Record t : Type := { composite_function : Callable }.

Definition requiresEncoding (self : t) : bool := true.

Section WithDecoder.
Variable multibandtile_decoder : bytes -> outcome Tile.

Definition compositeEncoded (self : t) (all_scala_arrays : list bytes)
  : M stderr (option bytes) :=
  try_except_Exception
    (cells <- mapM (fun scala_array =>
                      tile <- lift (multibandtile_decoder scala_array) ;;
                      ret (cells tile))
                   all_scala_arrays ;;
     image <- lift (composite_function self (ArgList cells)) ;;
     png <- lift (save image "PNG") ;;
     ret (Some png))
    (fun e => print_exc e ;; ret None).

End WithDecoder.
End TileCompositer.

(** The JVM objects tms.py builds, as the terms that construct them. *)
Inductive Reader : Type :=
| createSpatialRddReader (levels : gmap Z SRDD)
| createCatalogReader (uri layer_name : string).

Inductive Renderer : Type :=
| RenderSinglebandFromCM (cmap : N)
| RenderPython (r : TileRender.t).

Inductive Route : Type :=
| renderingTileRoute (reader : Reader) (display : Renderer)
| compositingTileRoute (readers : list Reader) (display : TileCompositer.t).

Inductive JServer : Type :=
| createServer (route : Route).

Record Pyramid : Type := { levels : gmap Z TiledRasterRDD.t }.

(** The values [TMS.build] may receive as [source]. *)
#[warnings="-register-all"]
Inductive PyVal : Type :=
| PNone
| PInt (z : Z)
| PStr (s : string)
| PTuple (items : list PyVal)
| PList (items : list PyVal)
| PPyramid (p : Pyramid).

(** The values [TMS.build] may receive as [display]: a [ColorMap] (with its
    [cmap] attribute), a callable, or anything else. *)
Inductive Display : Type :=
| DColorMap (cmap : N)
| DCallable (f : Callable)
| DOther.

(** What [TMS.bind] and [TMS.unbind] get from outside the process: the JVM
    server's answers and the two socket queries of the host discovery. *)
Record Net : Type := {
  server_bind : string -> option Z -> outcome unit;
  server_port : outcome Z;
  server_unbind : outcome unit;
  gethostbyname_ex : outcome (list string);
  udp_getsockname : outcome string
}.

(** [t[i]] on a tuple: as for a list, with the tuple's own message. *)
Definition getitem_tuple {A} (items : list A) (i : Z) : outcome A :=
  match getitem items i with
  | Return x => Return x
  | Raise _ => Raise (IndexError "tuple index out of range")
  end.

Module TMS.

Record t : Type := {
  server : JServer;
  handshake : string;
  bound : bool;
  _host : option string;
  _port : option Z
}.

Definition set_handshake_field (h : string) (self : t) : t :=
  {| server := server self; handshake := h; bound := bound self;
     _host := _host self; _port := _port self |}.
Definition set_bound (b : bool) (self : t) : t :=
  {| server := server self; handshake := handshake self; bound := b;
     _host := _host self; _port := _port self |}.
Definition set_host (h : option string) (self : t) : t :=
  {| server := server self; handshake := handshake self; bound := bound self;
     _host := h; _port := _port self |}.
Definition set_port (p : option Z) (self : t) : t :=
  {| server := server self; handshake := handshake self; bound := bound self;
     _host := _host self; _port := p |}.

Definition __init__ (server : JServer) : t :=
  {| server := server; handshake := EmptyString; bound := false;
     _host := None; _port := None |}.

Definition set_handshake (handshake : string) : M t unit :=
  modify (set_handshake_field handshake).

(** The last statement of [bind]'s [try] block: the first address of the
    host name that is not a loopback one, else the local address of a UDP
    socket connected to 8.8.8.8. Both candidates are computed. *)
Definition discover_host (net : Net) : M t string :=
  ips <- lift (gethostbyname_ex net) ;;
  let a := take 1 (List.filter (fun ip => negb (startswith "127." ip)) ips) in
  sockname <- lift (udp_getsockname net) ;;
  let b := [sockname] in
  l <- lift (getitem (List.filter (fun l => negb (Nat.eqb (length l) 0)) [a; b]) 0) ;;
  lift (getitem l 0).

Definition bind_error_arg (requested_port : option Z) (self : t) : option string :=
  match truthy requested_port with
  | Some _ =>
      match format "{} on port {}" [str_opt_str (_host self); str_opt_int (_port self)] with
      | Some s => Some ("Error binding to " +:+ s)
      | None => None
      end
  | None => _host self
  end.

Definition bind (net : Net) (host : string) (requested_port : option Z) : M t unit :=
  try_except
    (match truthy requested_port with
     | Some p => lift (server_bind net host (Some p))
     | None => lift (server_bind net host None)
     end ;;
     modify (set_bound true) ;;
     port <- lift (server_port net) ;;
     modify (set_port (Some port)) ;;
     h <- discover_host net ;;
     modify (set_host (Some h)))
    (fun _ => self <- get ;; raise (RuntimeError (bind_error_arg requested_port self))).

Definition unbind (net : Net) : M t unit :=
  lift (server_unbind net) ;;
  modify (set_port None) ;;
  modify (set_host None).

Definition host (self : t) : option string := _host self.
Definition port (self : t) : option Z := _port self.

Definition url_template : string := "http://{}:{}/tile/{{z}}/{{x}}/{{y}}.png".

Definition url_pattern : M t string :=
  self <- get ;;
  if negb (bound self) then
    raise (ValueError ["Cannot generate URL for unbound TMS server"])
  else
    match format url_template [str_opt_str (_host self); str_opt_int (_port self)] with
    | Some s => ret s
    | None => raise (IndexError "Replacement index out of range")
    end.

Definition isinstance_str (v : PyVal) : option string :=
  match v with PStr s => Some s | _ => None end.

Definition makeReader (arg : PyVal) : outcome Reader :=
  let invalid := Raise (ValueError ["Arguments must be of type Pyramid or (string, string)"]) in
  match arg with
  | PPyramid p =>
      Return (createSpatialRddReader (TiledRasterRDD.srdd <$> levels p))
  | PTuple items =>
      match getitem_tuple items 0 with
      | Raise e => Raise e
      | Return a0 =>
          match isinstance_str a0 with
          | None => invalid
          | Some uri =>
              match getitem_tuple items 1 with
              | Raise e => Raise e
              | Return a1 =>
                  match isinstance_str a1 with
                  | None => invalid
                  | Some layer_name => Return (createCatalogReader uri layer_name)
                  end
              end
          end
      end
  | _ => invalid
  end.

(** [[makeReader(arg) for arg in source]]. *)
Fixpoint makeReaders (source : list PyVal) : outcome (list Reader) :=
  match source with
  | [] => Return []
  | arg :: rest =>
      match makeReader arg with
      | Raise e => Raise e
      | Return r =>
          match makeReaders rest with
          | Raise e => Raise e
          | Return rs => Return (r :: rs)
          end
      end
  end.

Definition isinstance_list (v : PyVal) : option (list PyVal) :=
  match v with PList l => Some l | _ => None end.

Definition build (source : PyVal) (display : Display) : outcome t :=
  let source :=
    match source with
    | PList [s] => s
    | _ => source
    end in
  let route :=
    match display with
    | DColorMap cmap =>
        match isinstance_list source with
        | Some _ =>
            Raise (ValueError ["May only apply color maps to a single input source"])
        | None =>
            match makeReader source with
            | Raise e => Raise e
            | Return reader =>
                let wrapped_display := RenderSinglebandFromCM cmap in
                Return (renderingTileRoute reader wrapped_display)
            end
        end
    | DCallable f =>
        match isinstance_list source with
        | Some args =>
            match makeReaders args with
            | Raise e => Raise e
            | Return readers =>
                Return (compositingTileRoute readers
                          {| TileCompositer.composite_function := f |})
            end
        | None =>
            match makeReader source with
            | Raise e => Raise e
            | Return reader =>
                Return (renderingTileRoute reader
                          (RenderPython {| TileRender.render_function := f |}))
            end
        end
    | DOther => Raise (ValueError ["Display method must be callable or a ColorMap"])
    end in
  match route with
  | Raise e => Raise e
  | Return route => Return (__init__ (createServer route))
  end.

End TMS.

(** ** Sample data *)

(** The zooms [start_zoom], [start_zoom - 1], ..., [end_zoom]. *)
Definition zooms_down (start_zoom end_zoom : Z) : list Z :=
  map (fun k => start_zoom - Z.of_nat k) (seq 0 (Z.to_nat (start_zoom - end_zoom + 1))).

(** Modelled from the spec: the raster engine's [pyramid(startZoom, endZoom,
    resampleMethod)], which is not part of the sources, returns the ordered
    levels from the start zoom down to the end zoom; each level knows its
    zoom. *)
Definition spec_pyramid (layer : TiledRasterRDD.t) (start_zoom end_zoom : Z)
  (resample_method : string) : list TiledRasterRDD.t :=
  map (fun z =>
         {| TiledRasterRDD.geopysc := TiledRasterRDD.geopysc layer;
            TiledRasterRDD.rdd_type := TiledRasterRDD.rdd_type layer;
            TiledRasterRDD.layer_metadata := TiledRasterRDD.layer_metadata layer;
            TiledRasterRDD.zoom_level := Some z;
            TiledRasterRDD.srdd := (TiledRasterRDD.srdd layer + Z.to_N z + 1)%N |})
      (zooms_down start_zoom end_zoom).

(** Modelled from the spec: the engine around [spec_pyramid]. The resampling
    methods are the closed enumeration of the constants module, which is not
    part of the sources; [reproject] hands back a layer that keeps its zoom,
    and a rendered level holds no tile. *)
Definition spec_engine : Engine :=
  {| RESAMPLE_METHODS :=
       ["NearestNeighbor"; "Bilinear"; "CubicConvolution"; "CubicSpline";
        "Lanczos"; "Average"; "Mode"; "Median"; "Max"; "Min"];
     NEARESTNEIGHBOR := "NearestNeighbor";
     ZOOM := "zoom";
     reproject := fun layer _ _ => layer;
     pyramid := spec_pyramid;
     asSingleband := fun h _ => {| png_handle := h; png_tiles := fun _ _ => [] |} |}.

Definition sample_layer (zoom_level : option Z) : TiledRasterRDD.t :=
  {| TiledRasterRDD.geopysc := 1%N;
     TiledRasterRDD.rdd_type := "spatial";
     TiledRasterRDD.layer_metadata :=
       {| bounds := {| minKey := {| Key.col := 0; Key.row := 0 |};
                       maxKey := {| Key.col := 3; Key.row := 3 |} |} |};
     TiledRasterRDD.zoom_level := zoom_level;
     TiledRasterRDD.srdd := 100%N |}.

(** Scenario A of the specification: levels at zooms 5 down to 0, with
    bounds (0,0)-(3,3) at zoom 5 that halve with every level. The level of
    zoom [z] has handle [z] and holds, for every key, one image that ends in
    the byte [z], and at zoom 5 a second shard. *)
Definition scenario_png (z : Z) : JPngRDD :=
  {| png_handle := Z.to_N z;
     png_tiles := fun _ _ =>
       let image := [Byte.x89; Byte.x50; Byte.x4e; Byte.x47;
                     match Byte.of_N (Z.to_N z) with Some b => b | None => Byte.xff end] in
       if z =? 5 then [image; [Byte.x89; Byte.x50]] else [image] |}.

Definition scenario_metadata (z : Z) : Metadata :=
  {| bounds := {| minKey := {| Key.col := 0; Key.row := 0 |};
                  maxKey := {| Key.col := Z.shiftr 3 (5 - z);
                               Key.row := Z.shiftr 3 (5 - z) |} |} |}.

Definition scenario_A : PngRDD.t :=
  {| PngRDD.geopysc := 1%N;
     PngRDD.rdd_type := "spatial";
     PngRDD.layer_metadata := map scenario_metadata (zooms_down 5 0);
     PngRDD.max_zoom := Some 5;
     PngRDD.pngpyramid := map scenario_png (zooms_down 5 0);
     PngRDD.debug := false |}.

(** A pyramid object has levels at the zooms [start_zoom] down to
    [end_zoom]: one rendered level and one metadata entry per zoom, the
    finest first. *)
Definition levels_at (self : PngRDD.t) (start_zoom end_zoom : Z) : Prop :=
  end_zoom <= start_zoom /\
  PngRDD.max_zoom self = Some start_zoom /\
  Z.of_nat (length (PngRDD.pngpyramid self)) = start_zoom - end_zoom + 1 /\
  length (PngRDD.layer_metadata self) = length (PngRDD.pngpyramid self).

(** A key lies in the rectangle of a level's bounds. *)
Definition col_in_bounds (md : Metadata) (col : Z) : Prop :=
  Key.col (minKey (bounds md)) <= col <= Key.col (maxKey (bounds md)).
Definition row_in_bounds (md : Metadata) (row : Z) : Prop :=
  Key.row (minKey (bounds md)) <= row <= Key.row (maxKey (bounds md)).

Definition sample_server : JServer :=
  createServer (renderingTileRoute (createCatalogReader "s3://catalog" "elevation")
                  (RenderSinglebandFromCM 7)).

(** Everything succeeds: the JVM server listens on port 8080, the host name
    resolves to a loopback address only, and the UDP socket reports the
    address of the outbound interface. *)
Definition net_ok : Net :=
  {| server_bind := fun _ _ => Return tt;
     server_port := Return 8080;
     server_unbind := Return tt;
     gethostbyname_ex := Return ["127.0.1.1"];
     udp_getsockname := Return "192.168.1.5" |}.

(** The requested address cannot be acquired. *)
Definition net_bind_fails : Net :=
  {| server_bind := fun _ _ => Raise (Py4JError "Address already in use");
     server_port := Return 8080;
     server_unbind := Return tt;
     gethostbyname_ex := Return ["127.0.1.1"];
     udp_getsockname := Return "192.168.1.5" |}.

(** The JVM server binds, and the query for its port fails. *)
Definition net_port_fails : Net :=
  {| server_bind := fun _ _ => Return tt;
     server_port := Raise (Py4JError "Answer from Java side is empty");
     server_unbind := Return tt;
     gethostbyname_ex := Return ["127.0.1.1"];
     udp_getsockname := Return "192.168.1.5" |}.

(** The JVM server binds and reports its port, and the host discovery fails:
    there is no route for the UDP socket. *)
Definition net_no_route : Net :=
  {| server_bind := fun _ _ => Return tt;
     server_port := Return 8080;
     server_unbind := Return tt;
     gethostbyname_ex := Return ["127.0.1.1"];
     udp_getsockname := Raise (OSError "Network is unreachable") |}.

Definition sample_decoder (scala_array : bytes) : outcome Tile :=
  match scala_array with
  | [] => Raise (UserError "Error parsing message")
  | _ => Return {| cells := [[[Z.of_nat (length scala_array)]]] |}
  end.

Definition png_image : Image :=
  {| save := fun _ => Return [Byte.x89; Byte.x50; Byte.x4e; Byte.x47] |}.

Definition good_callback : Callable := fun _ => Return png_image.
Definition failing_callback : Callable := fun _ => Raise (UserError "bad cells").
Definition exiting_callback : Callable := fun _ => Raise (SystemExit 1).

Definition sample_pyramid : Pyramid :=
  {| levels := list_to_map [(0, sample_layer (Some 0)); (1, sample_layer (Some 1))] |}.

Definition catalog_source : PyVal := PTuple [PStr "s3://catalog"; PStr "elevation"].

(** A tile source: a [Pyramid] or a (string, string) pair. *)
Definition is_tile_source (v : PyVal) : bool :=
  match v with
  | PPyramid _ => true
  | PTuple [PStr _; PStr _] => true
  | _ => false
  end.

(** What [makePyramid] does once the resampling method is accepted and the
    start zoom is settled as [z]. *)
Definition pyramid_from (E : Engine) (tiledrdd : TiledRasterRDD.t) (ramp_name : string)
  (z end_zoom : Z) (resample_method persist_mode : string) (debug : bool) (t : trace)
  : outcome PngRDD.t * trace :=
  let reprojected := reproject E tiledrdd "EPSG:3857" (ZOOM E) in
  PngRDD.__init__ E (pyramid E reprojected z end_zoom resample_method)
    ramp_name persist_mode debug
    (t ++ [EvReproject (TiledRasterRDD.srdd tiledrdd) "EPSG:3857" (ZOOM E)]
       ++ [EvPyramid (TiledRasterRDD.srdd reprojected) z end_zoom resample_method]).

(** The list comprehension of [compositeEncoded]: the cells of every array,
    or the exception of the first array that does not decode. *)
Fixpoint decode_all (multibandtile_decoder : bytes -> outcome Tile)
  (all_scala_arrays : list bytes) : outcome (list Cells) :=
  match all_scala_arrays with
  | [] => Return []
  | scala_array :: rest =>
      match multibandtile_decoder scala_array with
      | Raise e => Raise e
      | Return tile =>
          match decode_all multibandtile_decoder rest with
          | Raise e => Raise e
          | Return cs => Return (cells tile :: cs)
          end
      end
  end.

(** ** render.py: [PngRDD.set_persist] *)

Module Persist.

(** The values the attributes of a [PngRDD] hold. *)
Inductive attr : Type :=
| AHandle (h : N)
| AStr (s : string)
| AMetadata (l : list Metadata)
| AZoom (z : option Z)
| APngs (l : list JPngRDD)
| ABool (b : bool)
| ALevels (l : list TiledRasterRDD.t)
| AMethod.

(** The instance dictionary of a [PngRDD]: the attributes that the
    assignments of [__init__] (lines 40-45) create. *)
Definition instance_dict (self : PngRDD.t) : gmap string attr :=
  list_to_map
    [("geopysc", AHandle (PngRDD.geopysc self));
     ("rdd_type", AStr (PngRDD.rdd_type self));
     ("layer_metadata", AMetadata (PngRDD.layer_metadata self));
     ("max_zoom", AZoom (PngRDD.max_zoom self));
     ("pngpyramid", APngs (PngRDD.pngpyramid self));
     ("debug", ABool (PngRDD.debug self))].

(** The names the class body binds. *)
Definition class_attrs : list string :=
  ["__init__"; "makePyramid"; "lookup"; "set_persist"].

(** [self.name]: the instance dictionary first, then the class. *)
Definition getattr (self : PngRDD.t) (name : string) : outcome attr :=
  match instance_dict self !! name with
  | Some v => Return v
  | None =>
      if contains_str name class_attrs then Return AMethod
      else Raise (AttributeError name)
  end.

(** What [set_persist] acts on: the [setPersistenceMode] calls that reached
    the JVM, and the [persisted] attribute once it is assigned. *)
Record state : Type := {
  persistence_calls : list (SRDD * string);
  persisted : option bool
}.

Definition setPersistenceMode (layer : SRDD) (storage_mode : string) : M state unit :=
  modify (fun s => {| persistence_calls := persistence_calls s ++ [(layer, storage_mode)];
                      persisted := persisted s |}).

Definition set_persist (self : PngRDD.t) (storage_mode : string) : M state unit :=
  pyramid <- lift (getattr self "pyramid") ;;
  match pyramid with
  | ALevels levels =>
      mapM (fun level => setPersistenceMode (TiledRasterRDD.srdd level) storage_mode)
           levels ;;
      modify (fun s => {| persistence_calls := persistence_calls s;
                          persisted := Some (negb (String.eqb storage_mode "NONE")) |})
  | _ => raise (TypeError "object is not iterable")
  end.

End Persist.

(** ** Python lists and strings *)

Lemma contains_str_In (x : string) (l : list string) :
  contains_str x l = true <-> In x l.
Proof.
  unfold contains_str. rewrite existsb_exists. split.
  - intros [y [Hy Heq]]. apply String.eqb_eq in Heq. now subst.
  - intros H. exists x. split; [assumption | apply String.eqb_refl].
Qed.

Lemma getitem_nonneg {A} (l : list A) (i : Z) (x : A) :
  0 <= i -> l !! Z.to_nat i = Some x -> getitem l i = Return x.
Proof.
  intros Hi Hx. unfold getitem.
  pose proof (lookup_lt_Some _ _ _ Hx) as Hlt.
  destruct (Z.ltb_spec i 0); [lia |].
  destruct (Z.ltb_spec i 0); [lia |].
  destruct (Z.leb_spec (Z.of_nat (length l)) i); [lia |].
  simpl. now rewrite Hx.
Qed.

Lemma getitem_too_large {A} (l : list A) (i : Z) :
  Z.of_nat (length l) <= i ->
  getitem l i = Raise (IndexError "list index out of range").
Proof.
  intros Hi. unfold getitem.
  destruct (Z.ltb_spec i 0); [lia |].
  destruct (Z.ltb_spec i 0); [lia |].
  destruct (Z.leb_spec (Z.of_nat (length l)) i); [reflexivity | lia].
Qed.

Lemma getitem_too_small {A} (l : list A) (i : Z) :
  i < - Z.of_nat (length l) ->
  getitem l i = Raise (IndexError "list index out of range").
Proof.
  intros Hi. unfold getitem.
  destruct (Z.ltb_spec i 0); [| lia].
  destruct (Z.ltb_spec (Z.of_nat (length l) + i) 0); [reflexivity | lia].
Qed.

(** A negative index within [-len, -1] counts from the end of the list. *)
Lemma getitem_negative {A} (l : list A) (i : Z) (x : A) :
  i < 0 -> l !! Z.to_nat (Z.of_nat (length l) + i) = Some x -> 0 <= Z.of_nat (length l) + i ->
  getitem l i = Return x.
Proof.
  intros Hi Hx Hge. unfold getitem.
  destruct (Z.ltb_spec i 0); [| lia].
  destruct (Z.ltb_spec (Z.of_nat (length l) + i) 0); [lia |].
  destruct (Z.leb_spec (Z.of_nat (length l)) (Z.of_nat (length l) + i)); [lia |].
  simpl. now rewrite Hx.
Qed.

Lemma contains_later (sub a s : string) :
  contains sub s = true -> contains sub (a +:+ s) = true.
Proof.
  intros H. induction a as [| c a IH]; simpl.
  - exact H.
  - rewrite IH. apply orb_true_r.
Qed.

(** ** render.py: [PngRDD.lookup] *)

(** Once the level is selected, [lookup] is the two bounds checks followed
    by the query of that level. *)
Lemma lookup_at_level (self : PngRDD.t) (zoom : option Z) (idx : Z)
  (png : JPngRDD) (md : Metadata) (col row : Z) (t : trace) :
  PngRDD.level_index self zoom = Return idx ->
  getitem (PngRDD.pngpyramid self) idx = Return png ->
  getitem (PngRDD.layer_metadata self) idx = Return md ->
  PngRDD.lookup self col row zoom t =
    if (col <? Key.col (minKey (bounds md))) || (col >? Key.col (maxKey (bounds md))) then
      (Raise (IndexError "column out of bounds"), t)
    else if (row <? Key.row (minKey (bounds md))) || (row >? Key.row (maxKey (bounds md))) then
      (Raise (IndexError "row out of bounds"), t)
    else (Return (png_tiles png col row), t ++ [EvLookup (png_handle png) col row]).
Proof.
  intros Hidx Hpng Hmd.
  unfold PngRDD.lookup, bind, lift. rewrite Hidx, Hpng, Hmd.
  destruct (_ || _); [reflexivity |].
  destruct (_ || _); [reflexivity |].
  unfold emit, modify, ret. now rewrite map_id.
Qed.

Lemma level_index_omitted (self : PngRDD.t) :
  PngRDD.level_index self None = Return 0.
Proof. reflexivity. Qed.

Lemma level_index_given (self : PngRDD.t) (max_zoom zoom : Z) :
  PngRDD.max_zoom self = Some max_zoom -> zoom <> 0 ->
  PngRDD.level_index self (Some zoom) = Return (max_zoom - zoom).
Proof.
  intros Hmax Hz. unfold PngRDD.level_index, truthy.
  destruct (Z.eqb_spec zoom 0); [contradiction |]. now rewrite Hmax.
Qed.

(** A zoom of the pyramid other than 0 selects the level at index
    [start_zoom - zoom]. *)
Lemma lookup_selects_level (self : PngRDD.t) (start_zoom end_zoom zoom : Z) :
  levels_at self start_zoom end_zoom ->
  end_zoom <= zoom <= start_zoom -> zoom <> 0 ->
  exists png md,
    PngRDD.level_index self (Some zoom) = Return (start_zoom - zoom) /\
    PngRDD.pngpyramid self !! Z.to_nat (start_zoom - zoom) = Some png /\
    PngRDD.layer_metadata self !! Z.to_nat (start_zoom - zoom) = Some md /\
    getitem (PngRDD.pngpyramid self) (start_zoom - zoom) = Return png /\
    getitem (PngRDD.layer_metadata self) (start_zoom - zoom) = Return md.
Proof.
  intros (Hle & Hmax & Hlen & Hmd) Hz Hnz.
  assert (Hlt : (Z.to_nat (start_zoom - zoom) < length (PngRDD.pngpyramid self))%nat) by lia.
  destruct (lookup_lt_is_Some_2 _ _ Hlt) as [png Hpng].
  rewrite <- Hmd in Hlt.
  destruct (lookup_lt_is_Some_2 _ _ Hlt) as [md Hmd'].
  exists png, md. repeat split; try assumption.
  - now apply level_index_given.
  - apply getitem_nonneg; [lia | assumption].
  - apply getitem_nonneg; [lia | assumption].
Qed.

(** A zoom below the coarsest level is refused with an index error, and
    nothing is queried. *)
Lemma lookup_zoom_below_end (self : PngRDD.t) (start_zoom end_zoom zoom : Z)
  (col row : Z) (t : trace) :
  levels_at self start_zoom end_zoom -> zoom < end_zoom -> zoom <> 0 ->
  PngRDD.lookup self col row (Some zoom) t =
    (Raise (IndexError "list index out of range"), t).
Proof.
  intros (Hle & Hmax & Hlen & Hmd) Hz Hnz.
  unfold PngRDD.lookup, bind, lift.
  rewrite (level_index_given _ _ _ Hmax Hnz).
  rewrite getitem_too_large by lia. reflexivity.
Qed.

(** A zoom more than a pyramid's height above the finest level is refused
    as well. *)
Lemma lookup_zoom_far_above (self : PngRDD.t) (start_zoom end_zoom zoom : Z)
  (col row : Z) (t : trace) :
  levels_at self start_zoom end_zoom ->
  start_zoom + (start_zoom - end_zoom + 1) < zoom -> zoom <> 0 ->
  PngRDD.lookup self col row (Some zoom) t =
    (Raise (IndexError "list index out of range"), t).
Proof.
  intros (Hle & Hmax & Hlen & Hmd) Hz Hnz.
  unfold PngRDD.lookup, bind, lift.
  rewrite (level_index_given _ _ _ Hmax Hnz).
  rewrite getitem_too_small by lia. reflexivity.
Qed.

(** A zoom up to a pyramid's height above the finest level gives a negative
    index, which selects a level counted from the coarsest one. *)
Lemma lookup_zoom_above_selects (self : PngRDD.t) (start_zoom end_zoom zoom : Z) :
  levels_at self start_zoom end_zoom ->
  start_zoom < zoom <= start_zoom + (start_zoom - end_zoom + 1) -> zoom <> 0 ->
  exists png,
    PngRDD.level_index self (Some zoom) = Return (start_zoom - zoom) /\
    PngRDD.pngpyramid self !! Z.to_nat (2 * start_zoom - end_zoom + 1 - zoom) = Some png /\
    getitem (PngRDD.pngpyramid self) (start_zoom - zoom) = Return png.
Proof.
  intros (Hle & Hmax & Hlen & Hmd) Hz Hnz.
  assert (Hlt : (Z.to_nat (2 * start_zoom - end_zoom + 1 - zoom)
                 < length (PngRDD.pngpyramid self))%nat) by lia.
  destruct (lookup_lt_is_Some_2 _ _ Hlt) as [png Hpng].
  exists png. repeat split; try assumption.
  - now apply level_index_given.
  - apply getitem_negative; [lia | | lia].
    rewrite Hlen.
    now replace (start_zoom - end_zoom + 1 + (start_zoom - zoom))
      with (2 * start_zoom - end_zoom + 1 - zoom) by lia.
Qed.

Lemma scenario_A_levels : levels_at scenario_A 5 0.
Proof. unfold levels_at. simpl. repeat split; lia. Qed.

(** An explicit zoom of 0 is read as an omitted zoom. *)
Lemma lookup_zoom_zero_as_omitted (self : PngRDD.t) (col row : Z) (t : trace) :
  PngRDD.lookup self col row (Some 0) t = PngRDD.lookup self col row None t.
Proof. reflexivity. Qed.

(** C1: on the pyramid of scenario A (zooms 5 down to 0), [lookup(0, 0, 6)]
    does not fail: index [5 - 6 = -1] selects the level of zoom 0, which is
    queried. [lookup(0, 0, 0)] takes the explicit zoom 0 for an omitted one
    and queries the level of zoom 5 at index 0, not the one at index 5; so
    does every lookup with zoom 0, on every pyramid. *)
Theorem lookup_zoom_outside_interval_answers :
  PngRDD.lookup scenario_A 0 0 (Some 6) [] =
    (Return [[Byte.x89; Byte.x50; Byte.x4e; Byte.x47; Byte.x00]], [EvLookup 0%N 0 0]) /\
  PngRDD.lookup scenario_A 0 0 (Some 0) [] =
    (Return [[Byte.x89; Byte.x50; Byte.x4e; Byte.x47; Byte.x05]; [Byte.x89; Byte.x50]],
     [EvLookup 5%N 0 0]) /\
  (forall self col row t,
     PngRDD.lookup self col row (Some 0) t = PngRDD.lookup self col row None t).
Proof.
  split; [reflexivity | split; [reflexivity |]].
  intros. apply lookup_zoom_zero_as_omitted.
Qed.

(** C3: on the level a lookup selects, a key inside the bounds queries the
    level once and returns its images in the order the source holds them; a
    column outside the bounds fails with the column error; a column inside
    and a row outside fail with the row error, which differs from the column
    error; and a failed lookup leaves the source unqueried. *)
Theorem lookup_bounds_checked (self : PngRDD.t) (zoom : option Z) (idx : Z)
  (png : JPngRDD) (md : Metadata) (col row : Z) (t : trace)
  (Hidx : PngRDD.level_index self zoom = Return idx)
  (Hpng : getitem (PngRDD.pngpyramid self) idx = Return png)
  (Hmd : getitem (PngRDD.layer_metadata self) idx = Return md) :
  (col_in_bounds md col -> row_in_bounds md row ->
   PngRDD.lookup self col row zoom t =
     (Return (png_tiles png col row), t ++ [EvLookup (png_handle png) col row])) /\
  (col < Key.col (minKey (bounds md)) \/ col > Key.col (maxKey (bounds md)) ->
   PngRDD.lookup self col row zoom t = (Raise (IndexError "column out of bounds"), t)) /\
  (col_in_bounds md col ->
   row < Key.row (minKey (bounds md)) \/ row > Key.row (maxKey (bounds md)) ->
   PngRDD.lookup self col row zoom t = (Raise (IndexError "row out of bounds"), t)) /\
  IndexError "column out of bounds" <> IndexError "row out of bounds".
Proof.
  rewrite (lookup_at_level _ _ _ _ _ col row t Hidx Hpng Hmd).
  unfold col_in_bounds, row_in_bounds. rewrite !Z.gtb_ltb.
  repeat split.
  - intros Hc Hr.
    destruct (Z.ltb_spec col (Key.col (minKey (bounds md)))); [lia |].
    destruct (Z.ltb_spec (Key.col (maxKey (bounds md))) col); [lia |].
    destruct (Z.ltb_spec row (Key.row (minKey (bounds md)))); [lia |].
    destruct (Z.ltb_spec (Key.row (maxKey (bounds md))) row); [lia |].
    reflexivity.
  - intros Hc.
    destruct (Z.ltb_spec col (Key.col (minKey (bounds md)))); [reflexivity |].
    destruct (Z.ltb_spec (Key.col (maxKey (bounds md))) col); [reflexivity | lia].
  - intros Hc Hr.
    destruct (Z.ltb_spec col (Key.col (minKey (bounds md)))); [lia |].
    destruct (Z.ltb_spec (Key.col (maxKey (bounds md))) col); [lia |].
    destruct (Z.ltb_spec row (Key.row (minKey (bounds md)))); [reflexivity |].
    destruct (Z.ltb_spec (Key.row (maxKey (bounds md))) row); [reflexivity | lia].
  - discriminate.
Qed.

Lemma lookup_bounds_checked_witness :
  PngRDD.lookup scenario_A 2 2 (Some 5) [] =
    (Return [[Byte.x89; Byte.x50; Byte.x4e; Byte.x47; Byte.x05]; [Byte.x89; Byte.x50]],
     [EvLookup 5%N 2 2]) /\
  PngRDD.lookup scenario_A 4 0 (Some 5) [] = (Raise (IndexError "column out of bounds"), []) /\
  PngRDD.lookup scenario_A 2 4 (Some 5) [] = (Raise (IndexError "row out of bounds"), []).
Proof.
  split; [| split].
  - apply (lookup_bounds_checked scenario_A (Some 5) 0 (scenario_png 5)
             (scenario_metadata 5) 2 2 [] eq_refl eq_refl eq_refl);
      split; apply Z.leb_le; reflexivity.
  - apply (lookup_bounds_checked scenario_A (Some 5) 0 (scenario_png 5)
             (scenario_metadata 5) 4 0 [] eq_refl eq_refl eq_refl).
    right. apply Z.lt_gt, Z.ltb_lt. reflexivity.
  - apply (lookup_bounds_checked scenario_A (Some 5) 0 (scenario_png 5)
             (scenario_metadata 5) 2 4 [] eq_refl eq_refl eq_refl).
    + split; apply Z.leb_le; reflexivity.
    + right. apply Z.lt_gt, Z.ltb_lt. reflexivity.
Defined.

(** ** render.py: [PngRDD.__init__] and [PngRDD.makePyramid] *)

Lemma render_levels (E : Engine) (ramp_name : string) (pyramid : list TiledRasterRDD.t)
  (t : trace) :
  mapM (fun layer =>
          emit (EvAsSingleband (TiledRasterRDD.srdd layer) ramp_name) ;;
          ret (asSingleband E (TiledRasterRDD.srdd layer) ramp_name))
       pyramid t =
  (Return (map (fun layer => asSingleband E (TiledRasterRDD.srdd layer) ramp_name) pyramid),
   t ++ map (fun layer => EvAsSingleband (TiledRasterRDD.srdd layer) ramp_name) pyramid).
Proof.
  revert t. induction pyramid as [| layer rest IH]; intros t; simpl.
  - unfold ret. now rewrite app_nil_r.
  - unfold bind at 1. unfold bind at 1. unfold emit, modify. simpl.
    unfold bind at 1. rewrite IH. unfold ret. now rewrite <- app_assoc.
Qed.

(** The constructor never hands back an object: with no level it stops at
    [pyramid[0]], and otherwise at the call of [set_persist], a name the
    module does not bind. *)
Lemma init_raises (E : Engine) (pyramid : list TiledRasterRDD.t)
  (ramp_name persist_mode : string) (debug : bool) (t : trace) :
  PngRDD.__init__ E pyramid ramp_name persist_mode debug t =
    match pyramid with
    | [] => (Raise (IndexError "list index out of range"), t)
    | _ :: _ =>
        (Raise (NameError "set_persist"),
         t ++ map (fun layer => EvAsSingleband (TiledRasterRDD.srdd layer) ramp_name) pyramid)
    end.
Proof.
  unfold PngRDD.__init__. destruct pyramid as [| level0 rest]; [reflexivity |].
  unfold bind at 1. unfold lift. simpl getitem. cbv iota beta.
  unfold bind at 1. rewrite render_levels. reflexivity.
Qed.

Lemma makePyramid_never_returns (E : Engine) (tiledrdd : TiledRasterRDD.t)
  (ramp_name : string) (start_zoom : option Z) (end_zoom : Z)
  (resample_method persist_mode : string) (debug : bool) (t : trace) :
  exists e t',
    PngRDD.makePyramid E tiledrdd ramp_name start_zoom end_zoom resample_method
      persist_mode debug t = (Raise e, t').
Proof.
  unfold PngRDD.makePyramid.
  destruct (negb _); [unfold raise; eauto |].
  unfold bind at 1. unfold emit, modify. cbv iota beta.
  unfold bind at 1.
  destruct (truthy start_zoom) as [z |].
  - unfold ret at 1. cbv iota beta. unfold bind at 1. cbv iota beta.
    rewrite init_raises. destruct (pyramid E _ _ _ _); eauto.
  - destruct (truthy (TiledRasterRDD.zoom_level _)) as [z |].
    + unfold ret at 1. cbv iota beta. unfold bind at 1. cbv iota beta.
      rewrite init_raises. destruct (pyramid E _ _ _ _); eauto.
    + unfold raise. eauto.
Qed.

Lemma makePyramid_start_supplied (E : Engine) (tiledrdd : TiledRasterRDD.t)
  (ramp_name : string) (z end_zoom : Z) (resample_method persist_mode : string)
  (debug : bool) (t : trace) :
  In resample_method (RESAMPLE_METHODS E) -> z <> 0 ->
  PngRDD.makePyramid E tiledrdd ramp_name (Some z) end_zoom resample_method
    persist_mode debug t =
  pyramid_from E tiledrdd ramp_name z end_zoom resample_method persist_mode debug t.
Proof.
  intros Hin Hz. apply contains_str_In in Hin.
  unfold PngRDD.makePyramid, pyramid_from. rewrite Hin. cbn [negb].
  unfold truthy at 1. destruct (Z.eqb_spec z 0); [contradiction |].
  unfold bind at 1. unfold emit, modify. cbv iota beta.
  unfold bind at 1. unfold ret at 1. cbv iota beta.
  unfold bind at 1. cbv iota beta. now rewrite <- app_assoc.
Qed.

Lemma makePyramid_start_defaulted (E : Engine) (tiledrdd : TiledRasterRDD.t)
  (ramp_name : string) (z end_zoom : Z) (resample_method persist_mode : string)
  (debug : bool) (t : trace) :
  In resample_method (RESAMPLE_METHODS E) ->
  TiledRasterRDD.zoom_level (reproject E tiledrdd "EPSG:3857" (ZOOM E)) = Some z ->
  z <> 0 ->
  PngRDD.makePyramid E tiledrdd ramp_name None end_zoom resample_method
    persist_mode debug t =
  pyramid_from E tiledrdd ramp_name z end_zoom resample_method persist_mode debug t.
Proof.
  intros Hin Hlevel Hz. apply contains_str_In in Hin.
  unfold PngRDD.makePyramid, pyramid_from. rewrite Hin. cbn [negb].
  rewrite Hlevel. unfold truthy. destruct (Z.eqb_spec z 0); [contradiction |].
  unfold bind at 1. unfold emit, modify. cbv iota beta.
  unfold bind at 1. unfold ret at 1. cbv iota beta.
  unfold bind at 1. cbv iota beta. now rewrite <- app_assoc.
Qed.

Lemma makePyramid_no_zoom (E : Engine) (tiledrdd : TiledRasterRDD.t)
  (ramp_name : string) (end_zoom : Z) (resample_method persist_mode : string)
  (debug : bool) (t : trace) :
  In resample_method (RESAMPLE_METHODS E) ->
  TiledRasterRDD.zoom_level (reproject E tiledrdd "EPSG:3857" (ZOOM E)) = None ->
  PngRDD.makePyramid E tiledrdd ramp_name None end_zoom resample_method
    persist_mode debug t =
  (Raise (AttributeError
     "No initial zoom level is available; Please provide a value for start_zoom"),
   t ++ [EvReproject (TiledRasterRDD.srdd tiledrdd) "EPSG:3857" (ZOOM E)]).
Proof.
  intros Hin Hlevel. apply contains_str_In in Hin.
  unfold PngRDD.makePyramid. rewrite Hin. cbn [negb].
  rewrite Hlevel. reflexivity.
Qed.

(** C2: a layer at zoom 3, no start zoom, end zoom 0 and the nearest-neighbour
    method: the layer is reprojected, the four levels 3, 2, 1, 0 are built
    and rendered, and the constructor then raises [NameError] at its call of
    [set_persist]; no object is returned. Whatever the engine and the
    arguments, [makePyramid] ends in an exception. *)
Theorem makePyramid_raises_NameError :
  PngRDD.makePyramid spec_engine (sample_layer (Some 3)) "hot" None 0
    "NearestNeighbor" "NONE" false [] =
  (Raise (NameError "set_persist"),
   [EvReproject 100%N "EPSG:3857" "zoom";
    EvPyramid 100%N 3 0 "NearestNeighbor";
    EvAsSingleband 104%N "hot"; EvAsSingleband 103%N "hot";
    EvAsSingleband 102%N "hot"; EvAsSingleband 101%N "hot"]) /\
  (forall E tiledrdd ramp_name start_zoom end_zoom resample_method persist_mode debug t,
     exists e t',
       PngRDD.makePyramid E tiledrdd ramp_name start_zoom end_zoom resample_method
         persist_mode debug t = (Raise e, t')).
Proof.
  split; [reflexivity |]. intros. apply makePyramid_never_returns.
Qed.

(** C8: a resampling method outside [RESAMPLE_METHODS] makes [makePyramid]
    raise [ValueError] with the engine untouched: the log of engine calls is
    the one the call started with. *)
Theorem makePyramid_unknown_method (E : Engine) (tiledrdd : TiledRasterRDD.t)
  (ramp_name : string) (start_zoom : option Z) (end_zoom : Z)
  (resample_method persist_mode : string) (debug : bool) (t : trace) :
  ~ In resample_method (RESAMPLE_METHODS E) ->
  PngRDD.makePyramid E tiledrdd ramp_name start_zoom end_zoom resample_method
    persist_mode debug t =
  (Raise (ValueError [resample_method; " Is not a known resample method."]), t).
Proof.
  intros Hnot. unfold PngRDD.makePyramid.
  destruct (contains_str resample_method (RESAMPLE_METHODS E)) eqn:Hc.
  - apply contains_str_In in Hc. contradiction.
  - reflexivity.
Qed.

Lemma makePyramid_unknown_method_witness :
  PngRDD.makePyramid spec_engine (sample_layer (Some 3)) "hot" (Some 3) 0
    "Nearest" "NONE" false [] =
  (Raise (ValueError ["Nearest"; " Is not a known resample method."]), []).
Proof.
  apply (makePyramid_unknown_method spec_engine (sample_layer (Some 3)) "hot"
           (Some 3) 0 "Nearest" "NONE" false []).
  intros Hin. apply contains_str_In in Hin. discriminate Hin.
Defined.

(** A supplied start zoom of 0 is read as an omitted one. *)
Lemma makePyramid_zero_as_omitted (E : Engine) (tiledrdd : TiledRasterRDD.t)
  (ramp_name : string) (end_zoom : Z) (resample_method persist_mode : string)
  (debug : bool) (t : trace) :
  PngRDD.makePyramid E tiledrdd ramp_name (Some 0) end_zoom resample_method
    persist_mode debug t =
  PngRDD.makePyramid E tiledrdd ramp_name None end_zoom resample_method
    persist_mode debug t.
Proof. reflexivity. Qed.

(** C9: a start zoom of 0 is taken for an omitted one. On a layer at zoom 5
    the pyramid is built from zoom 5, not from the supplied 0; on a layer
    with no zoom the call fails as if no start zoom had been given; and on
    every input a supplied 0 does what an omitted start zoom does. *)
Theorem makePyramid_start_zoom_zero :
  PngRDD.makePyramid spec_engine (sample_layer (Some 5)) "hot" (Some 0) 0
    "NearestNeighbor" "NONE" false [] =
  (Raise (NameError "set_persist"),
   [EvReproject 100%N "EPSG:3857" "zoom";
    EvPyramid 100%N 5 0 "NearestNeighbor";
    EvAsSingleband 106%N "hot"; EvAsSingleband 105%N "hot";
    EvAsSingleband 104%N "hot"; EvAsSingleband 103%N "hot";
    EvAsSingleband 102%N "hot"; EvAsSingleband 101%N "hot"]) /\
  PngRDD.makePyramid spec_engine (sample_layer None) "hot" (Some 0) 0
    "NearestNeighbor" "NONE" false [] =
  (Raise (AttributeError
     "No initial zoom level is available; Please provide a value for start_zoom"),
   [EvReproject 100%N "EPSG:3857" "zoom"]) /\
  (forall E tiledrdd ramp_name end_zoom resample_method persist_mode debug t,
     PngRDD.makePyramid E tiledrdd ramp_name (Some 0) end_zoom resample_method
       persist_mode debug t =
     PngRDD.makePyramid E tiledrdd ramp_name None end_zoom resample_method
       persist_mode debug t).
Proof.
  split; [reflexivity | split; [reflexivity |]].
  intros. apply makePyramid_zero_as_omitted.
Qed.

(** ** tms.py: the life cycle of a [TMS] *)

Lemma format_url (h p : string) :
  format TMS.url_template [h; p] =
    Some ("http://" +:+ h +:+ ":" +:+ p +:+ "/tile/{z}/{x}/{y}.png").
Proof. reflexivity. Qed.

Lemma url_pattern_unbound (self : TMS.t) :
  TMS.bound self = false ->
  TMS.url_pattern self =
    (Raise (ValueError ["Cannot generate URL for unbound TMS server"]), self).
Proof. intros H. unfold TMS.url_pattern, bind, get. now rewrite H. Qed.

Lemma url_pattern_bound (self : TMS.t) :
  TMS.bound self = true ->
  TMS.url_pattern self =
    (Return ("http://" +:+ str_opt_str (TMS._host self) +:+ ":" +:+
             str_opt_int (TMS._port self) +:+ "/tile/{z}/{x}/{y}.png"), self).
Proof.
  intros H. unfold TMS.url_pattern, bind, get. rewrite H. cbn [negb].
  now rewrite format_url.
Qed.

Lemma url_tokens (h p : string) :
  let url := "http://" +:+ h +:+ ":" +:+ p +:+ "/tile/{z}/{x}/{y}.png" in
  contains "{z}" url = true /\ contains "{x}" url = true /\ contains "{y}" url = true.
Proof.
  cbv zeta. repeat split;
    apply (contains_later _ "http://"), contains_later,
          (contains_later _ ":"), contains_later; reflexivity.
Qed.

(** [url_pattern] raises exactly when the [bound] flag is unset, and with
    the flag set it returns a string with the three tokens. *)
Lemma url_pattern_flag (self : TMS.t) :
  ((exists e, fst (TMS.url_pattern self) = Raise e) <-> TMS.bound self = false) /\
  (TMS.bound self = true ->
   exists url, TMS.url_pattern self = (Return url, self) /\
     contains "{z}" url = true /\ contains "{x}" url = true /\ contains "{y}" url = true).
Proof.
  split; [split |].
  - intros [e He]. destruct (TMS.bound self) eqn:Hb; [| reflexivity].
    rewrite (url_pattern_bound _ Hb) in He. discriminate He.
  - intros Hb. rewrite (url_pattern_unbound _ Hb). eauto.
  - intros Hb. rewrite (url_pattern_bound _ Hb). eexists. split; [reflexivity |].
    apply url_tokens.
Qed.

Lemma url_pattern_after_init (server : JServer) :
  TMS.url_pattern (TMS.__init__ server) =
    (Raise (ValueError ["Cannot generate URL for unbound TMS server"]),
     TMS.__init__ server).
Proof. now apply url_pattern_unbound. Qed.

(** [unbind] resets the host and the port, and leaves the [bound] flag as
    it finds it. *)
Lemma unbind_keeps_flag (net : Net) (self : TMS.t) :
  TMS.bound (snd (TMS.unbind net self)) = TMS.bound self.
Proof.
  unfold TMS.unbind, bind, lift, modify.
  destruct (server_unbind net); reflexivity.
Qed.

(** The host discovery: the first address of the host name outside
    127.0.0.0/8, else the address the UDP socket reports. *)
Lemma discover_host_unfold (net : Net) (self : TMS.t) :
  TMS.discover_host net self =
    match gethostbyname_ex net with
    | Raise e => (Raise e, self)
    | Return ips =>
        match udp_getsockname net with
        | Raise e => (Raise e, self)
        | Return sockname =>
            (Return (hd sockname (List.filter (fun ip => negb (startswith "127." ip)) ips)),
             self)
        end
    end.
Proof.
  unfold TMS.discover_host, bind, lift.
  destruct (gethostbyname_ex net) as [ips | e]; [| reflexivity].
  destruct (udp_getsockname net) as [sockname | e]; [| reflexivity].
  destruct (List.filter _ ips) as [| ip rest]; reflexivity.
Qed.

Lemma bind_unfold (net : Net) (host : string) (requested_port : option Z) (self : TMS.t) :
  TMS.bind net host requested_port self =
    match server_bind net host (truthy requested_port) with
    | Raise _ => (Raise (RuntimeError (TMS.bind_error_arg requested_port self)), self)
    | Return _ =>
        let s1 := TMS.set_bound true self in
        match server_port net with
        | Raise _ => (Raise (RuntimeError (TMS.bind_error_arg requested_port s1)), s1)
        | Return port =>
            let s2 := TMS.set_port (Some port) s1 in
            match TMS.discover_host net s2 with
            | (Raise _, _) =>
                (Raise (RuntimeError (TMS.bind_error_arg requested_port s2)), s2)
            | (Return h, _) => (Return tt, TMS.set_host (Some h) s2)
            end
        end
    end.
Proof.
  unfold TMS.bind, try_except, bind, lift, modify, get, raise.
  destruct (truthy requested_port) as [p |].
  - destruct (server_bind net host (Some p)) as [[] | e]; [| reflexivity].
    destruct (server_port net) as [port | e]; [| reflexivity].
    cbv zeta. rewrite discover_host_unfold.
    destruct (gethostbyname_ex net) as [ips | e]; [| reflexivity].
    destruct (udp_getsockname net) as [sockname | e]; reflexivity.
  - destruct (server_bind net host None) as [[] | e]; [| reflexivity].
    destruct (server_port net) as [port | e]; [| reflexivity].
    cbv zeta. rewrite discover_host_unfold.
    destruct (gethostbyname_ex net) as [ips | e]; [| reflexivity].
    destruct (udp_getsockname net) as [sockname | e]; reflexivity.
Qed.

(** A bind in which every step succeeds sets the flag and records the port
    and the host. *)
Lemma bind_success (net : Net) (host : string) (requested_port : option Z)
  (self : TMS.t) (port : Z) (ips : list string) (sockname : string) :
  server_bind net host (truthy requested_port) = Return tt ->
  server_port net = Return port ->
  gethostbyname_ex net = Return ips ->
  udp_getsockname net = Return sockname ->
  TMS.bind net host requested_port self =
    (Return tt,
     TMS.set_host (Some (hd sockname (List.filter (fun ip => negb (startswith "127." ip)) ips)))
       (TMS.set_port (Some port) (TMS.set_bound true self))).
Proof.
  intros Hb Hp Hi Hu. rewrite bind_unfold, Hb, Hp. cbv zeta.
  now rewrite discover_host_unfold, Hi, Hu.
Qed.

(** After a successful [unbind] a server with the flag set answers
    [url_pattern] with a pattern built from the reset host and port. *)
Lemma unbind_then_url_pattern (net : Net) (self : TMS.t) :
  TMS.bound self = true -> server_unbind net = Return tt ->
  (TMS.unbind net ;; TMS.url_pattern) self =
    (Return "http://None:None/tile/{z}/{x}/{y}.png",
     TMS.set_host None (TMS.set_port None self)).
Proof.
  intros Hb Hu. unfold bind at 1. unfold TMS.unbind, bind, lift, modify.
  rewrite Hu. cbv iota beta. rewrite url_pattern_bound by exact Hb. reflexivity.
Qed.

(** C4: a server that was bound and then unbound still answers
    [url_pattern]: the pattern is built from the reset host and port,
    because no [unbind] ever changes the [bound] flag. *)
Theorem url_pattern_after_unbind :
  (TMS.bind net_ok "0.0.0.0" None ;; TMS.unbind net_ok ;; TMS.url_pattern)
    (TMS.__init__ sample_server) =
  (Return "http://None:None/tile/{z}/{x}/{y}.png",
   {| TMS.server := sample_server; TMS.handshake := EmptyString; TMS.bound := true;
      TMS._host := None; TMS._port := None |}) /\
  (forall net self, TMS.bound (snd (TMS.unbind net self)) = TMS.bound self).
Proof.
  split; [reflexivity |]. intros. apply unbind_keeps_flag.
Qed.

(** When the JVM server has bound, a failure of the port query or of the
    host discovery makes [bind] raise its [RuntimeError] with the [bound]
    flag already set, and with the port recorded when it was the discovery
    that failed. *)
Lemma bind_late_failure (net : Net) (host : string) (requested_port : option Z)
  (self : TMS.t) :
  server_bind net host (truthy requested_port) = Return tt ->
  match server_port net with
  | Raise _ =>
      TMS.bind net host requested_port self =
        (Raise (RuntimeError (TMS.bind_error_arg requested_port (TMS.set_bound true self))),
         TMS.set_bound true self)
  | Return port =>
      (exists e, gethostbyname_ex net = Raise e) \/ (exists e, udp_getsockname net = Raise e) ->
      TMS.bind net host requested_port self =
        (Raise (RuntimeError (TMS.bind_error_arg requested_port
                                (TMS.set_port (Some port) (TMS.set_bound true self)))),
         TMS.set_port (Some port) (TMS.set_bound true self))
  end.
Proof.
  intros Hb. rewrite bind_unfold, Hb. cbv zeta.
  destruct (server_port net) as [port | e]; [| reflexivity].
  rewrite discover_host_unfold. intros [[e He] | [e He]].
  - now rewrite He.
  - rewrite He. now destruct (gethostbyname_ex net).
Qed.

(** C5: the JVM server binds and the query for its port fails. [bind]
    raises its [RuntimeError], and the object is left with the [bound] flag
    set while its host and port are [None]; [url_pattern] then answers as on
    a bound server. When it is the host discovery that fails, the flag is
    set and the port recorded as well. *)
Theorem bind_port_failure_sets_flag :
  TMS.bind net_port_fails "0.0.0.0" None (TMS.__init__ sample_server) =
    (Raise (RuntimeError None),
     {| TMS.server := sample_server; TMS.handshake := EmptyString; TMS.bound := true;
        TMS._host := None; TMS._port := None |}) /\
  TMS.bound (snd (TMS.bind net_port_fails "0.0.0.0" None (TMS.__init__ sample_server)))
    <> false /\
  TMS.url_pattern
    (snd (TMS.bind net_port_fails "0.0.0.0" None (TMS.__init__ sample_server))) =
    (Return "http://None:None/tile/{z}/{x}/{y}.png",
     {| TMS.server := sample_server; TMS.handshake := EmptyString; TMS.bound := true;
        TMS._host := None; TMS._port := None |}) /\
  TMS.bind net_no_route "0.0.0.0" (Some 8080) (TMS.__init__ sample_server) =
    (Raise (RuntimeError (Some "Error binding to None on port 8080")),
     {| TMS.server := sample_server; TMS.handshake := EmptyString; TMS.bound := true;
        TMS._host := None; TMS._port := Some 8080 |}).
Proof. split; [reflexivity | split; [discriminate | split; reflexivity]]. Qed.

(** A failing [bind] raises [RuntimeError] and leaves the host, the
    handshake and the server handle as they were. When it is the JVM
    server's own bind that fails, the whole state is unchanged. When the
    failure comes later, the [bound] flag is set, and the port is recorded
    if the port query succeeded. *)
Theorem bind_failure_state (net : Net) (host : string) (requested_port : option Z)
  (self self' : TMS.t) (e : exn) :
  TMS.bind net host requested_port self = (Raise e, self') ->
  e = RuntimeError (TMS.bind_error_arg requested_port self') /\
  TMS._host self' = TMS._host self /\
  TMS.handshake self' = TMS.handshake self /\
  TMS.server self' = TMS.server self /\
  match server_bind net host (truthy requested_port) with
  | Raise _ => self' = self
  | Return _ =>
      TMS.bound self' = true /\
      match server_port net with
      | Raise _ => TMS._port self' = TMS._port self
      | Return port => TMS._port self' = Some port
      end
  end.
Proof.
  rewrite bind_unfold.
  destruct (server_bind net host (truthy requested_port)) as [[] | e1].
  - cbv zeta. destruct (server_port net) as [port | e2].
    + rewrite discover_host_unfold.
      destruct (gethostbyname_ex net) as [ips | e3].
      * destruct (udp_getsockname net) as [sockname | e4]; intros H;
          inversion H; subst; repeat split; reflexivity.
      * intros H; inversion H; subst; repeat split; reflexivity.
    + intros H; inversion H; subst; repeat split; reflexivity.
  - intros H; inversion H; subst; repeat split; reflexivity.
Qed.

Lemma bind_failure_state_witness :
  TMS.bind net_no_route "0.0.0.0" (Some 8080) (TMS.__init__ sample_server) =
    (Raise (RuntimeError (Some "Error binding to None on port 8080")),
     TMS.set_port (Some 8080) (TMS.set_bound true (TMS.__init__ sample_server))) /\
  (RuntimeError (Some "Error binding to None on port 8080") =
     RuntimeError (TMS.bind_error_arg (Some 8080)
       (TMS.set_port (Some 8080) (TMS.set_bound true (TMS.__init__ sample_server)))) /\
   TMS._host (TMS.set_port (Some 8080) (TMS.set_bound true (TMS.__init__ sample_server)))
     = None /\
   TMS.handshake (TMS.set_port (Some 8080) (TMS.set_bound true (TMS.__init__ sample_server)))
     = EmptyString /\
   TMS.server (TMS.set_port (Some 8080) (TMS.set_bound true (TMS.__init__ sample_server)))
     = sample_server /\
   TMS.bound (TMS.set_port (Some 8080) (TMS.set_bound true (TMS.__init__ sample_server)))
     = true /\
   TMS._port (TMS.set_port (Some 8080) (TMS.set_bound true (TMS.__init__ sample_server)))
     = Some 8080).
Proof.
  split; [reflexivity |].
  exact (bind_failure_state net_no_route "0.0.0.0" (Some 8080)
           (TMS.__init__ sample_server)
           (TMS.set_port (Some 8080) (TMS.set_bound true (TMS.__init__ sample_server)))
           (RuntimeError (Some "Error binding to None on port 8080")) eq_refl).
Defined.

(** ** tms.py: [TMS.build] *)

Lemma makeReader_tile_source (s : PyVal) :
  is_tile_source s = true -> exists reader, TMS.makeReader s = Return reader.
Proof.
  destruct s as [| z | str | items | items | p]; try discriminate.
  - destruct items as [| a [| b [| c rest]]]; try discriminate;
      destruct a; try discriminate; destruct b; try discriminate.
    intros _. eexists. reflexivity.
  - intros _. eexists. reflexivity.
Qed.

(** Only a list of exactly one element is unwrapped: on anything that is
    not a list, wrapping it in a list changes nothing. *)
Lemma build_singleton_unwrapped (display : Display) (s : PyVal) :
  TMS.isinstance_list s = None ->
  TMS.build (PList [s]) display = TMS.build s display.
Proof. destruct s; try discriminate; reflexivity. Qed.

Lemma build_colormap_single (cmap : N) (s : PyVal) (reader : Reader) :
  TMS.isinstance_list s = None -> TMS.makeReader s = Return reader ->
  TMS.build s (DColorMap cmap) =
    Return (TMS.__init__ (createServer
              (renderingTileRoute reader (RenderSinglebandFromCM cmap)))).
Proof.
  intros Hl Hr. unfold TMS.build.
  destruct s; try discriminate; cbv zeta; rewrite ?Hl, Hr; reflexivity.
Qed.

Lemma tile_source_not_list (s : PyVal) :
  is_tile_source s = true -> TMS.isinstance_list s = None.
Proof. destruct s; try discriminate; reflexivity. Qed.



(** C10: for a tile source [s] and any display, [build([s], display)] is
    [build(s, display)]; with a [ColorMap] the one-element list is accepted
    and gives the single-source colour-map route. *)
Theorem build_singleton_list (display : Display) (s : PyVal) :
  is_tile_source s = true ->
  TMS.build (PList [s]) display = TMS.build s display /\
  (forall cmap, display = DColorMap cmap ->
     exists reader,
       TMS.makeReader s = Return reader /\
       TMS.build (PList [s]) display =
         Return (TMS.__init__ (createServer
                   (renderingTileRoute reader (RenderSinglebandFromCM cmap))))).
Proof.
  intros Hs. pose proof (tile_source_not_list s Hs) as Hl. split.
  - now apply build_singleton_unwrapped.
  - intros cmap ->. destruct (makeReader_tile_source s Hs) as [reader Hr].
    exists reader. split; [assumption |].
    rewrite build_singleton_unwrapped by assumption.
    now apply build_colormap_single.
Qed.

Lemma build_singleton_list_witness :
  TMS.build (PList [PPyramid sample_pyramid]) (DColorMap 7) =
    TMS.build (PPyramid sample_pyramid) (DColorMap 7) /\
  (forall cmap, DColorMap 7 = DColorMap cmap ->
     exists reader,
       TMS.makeReader (PPyramid sample_pyramid) = Return reader /\
       TMS.build (PList [PPyramid sample_pyramid]) (DColorMap 7) =
         Return (TMS.__init__ (createServer
                   (renderingTileRoute reader (RenderSinglebandFromCM cmap))))).
Proof.
  apply (build_singleton_list (DColorMap 7) (PPyramid sample_pyramid)). reflexivity.
Defined.

Example build_pyramid_route :
  TMS.build (PList [PPyramid sample_pyramid]) (DColorMap 7) =
    Return (TMS.__init__ (createServer
              (renderingTileRoute
                 (createSpatialRddReader (list_to_map [(0, 100%N); (1, 100%N)]))
                 (RenderSinglebandFromCM 7)))).
Proof. vm_compute. reflexivity. Qed.

Example build_two_sources_composite :
  TMS.build (PList [catalog_source; PPyramid sample_pyramid]) (DCallable good_callback) =
    Return (TMS.__init__ (createServer
              (compositingTileRoute
                 [createCatalogReader "s3://catalog" "elevation";
                  createSpatialRddReader (list_to_map [(0, 100%N); (1, 100%N)])]
                 {| TileCompositer.composite_function := good_callback |}))).
Proof. vm_compute. reflexivity. Qed.

(** ** tms.py: the rendering callbacks *)

Lemma decode_all_mapM (dec : bytes -> outcome Tile) (arrays : list bytes) (log : stderr) :
  mapM (fun scala_array => tile <- lift (dec scala_array) ;; ret (cells tile))
       arrays log =
  (decode_all dec arrays, log).
Proof.
  induction arrays as [| a rest IH]; simpl; [reflexivity |].
  unfold bind, lift, ret in *.
  destruct (dec a) as [tile | e]; [| reflexivity].
  rewrite IH. destruct (decode_all dec rest); reflexivity.
Qed.

(** The [try] block of [renderEncoded], stage by stage. *)
Lemma renderEncoded_unfold (dec : bytes -> outcome Tile) (self : TileRender.t)
  (scala_array : bytes) (log : stderr) :
  TileRender.renderEncoded dec self scala_array log =
    let caught e := if isinstance_Exception e then (Return None, log ++ [e])
                    else (Raise e, log) in
    match dec scala_array with
    | Raise e => caught e
    | Return tile =>
        match TileRender.render_function self (ArgCells (cells tile)) with
        | Raise e => caught e
        | Return image =>
            match save image "PNG" with
            | Raise e => caught e
            | Return png => (Return (Some png), log)
            end
        end
    end.
Proof.
  unfold TileRender.renderEncoded, try_except_Exception, try_except, bind, lift.
  destruct (dec scala_array) as [tile | e]; cbv zeta.
  - destruct (TileRender.render_function self _) as [image | e].
    + destruct (save image "PNG") as [png | e]; [reflexivity |].
      destruct (isinstance_Exception e); reflexivity.
    + destruct (isinstance_Exception e); reflexivity.
  - destruct (isinstance_Exception e); reflexivity.
Qed.

Lemma compositeEncoded_unfold (dec : bytes -> outcome Tile) (self : TileCompositer.t)
  (all_scala_arrays : list bytes) (log : stderr) :
  TileCompositer.compositeEncoded dec self all_scala_arrays log =
    let caught e := if isinstance_Exception e then (Return None, log ++ [e])
                    else (Raise e, log) in
    match decode_all dec all_scala_arrays with
    | Raise e => caught e
    | Return cs =>
        match TileCompositer.composite_function self (ArgList cs) with
        | Raise e => caught e
        | Return image =>
            match save image "PNG" with
            | Raise e => caught e
            | Return png => (Return (Some png), log)
            end
        end
    end.
Proof.
  unfold TileCompositer.compositeEncoded, try_except_Exception, try_except.
  unfold bind at 1. rewrite decode_all_mapM. unfold bind, lift.
  destruct (decode_all dec all_scala_arrays) as [cs | e]; cbv zeta.
  - destruct (TileCompositer.composite_function self _) as [image | e].
    + destruct (save image "PNG") as [png | e]; [reflexivity |].
      destruct (isinstance_Exception e); reflexivity.
    + destruct (isinstance_Exception e); reflexivity.
  - destruct (isinstance_Exception e); reflexivity.
Qed.

(** Whatever the decoder and the callback do, an exception that leaves
    either method is not an instance of [Exception]. *)
Lemma encoded_raises_only_base (dec : bytes -> outcome Tile) (log : stderr) (e : exn) :
  (forall (self : TileRender.t) scala_array log',
     TileRender.renderEncoded dec self scala_array log = (Raise e, log') ->
     isinstance_Exception e = false) /\
  (forall (self : TileCompositer.t) arrays log',
     TileCompositer.compositeEncoded dec self arrays log = (Raise e, log') ->
     isinstance_Exception e = false).
Proof.
  split.
  - intros self a log'. rewrite renderEncoded_unfold. cbv zeta.
    destruct (dec a) as [tile | e1];
      [destruct (TileRender.render_function self _) as [image | e1];
       [destruct (save image "PNG") as [png | e1] |] |];
      try discriminate;
      destruct (isinstance_Exception e1) eqn:He; try discriminate;
      intros H; inversion H; subst; assumption.
  - intros self a log'. rewrite compositeEncoded_unfold. cbv zeta.
    destruct (decode_all dec a) as [cs | e1];
      [destruct (TileCompositer.composite_function self _) as [image | e1];
       [destruct (save image "PNG") as [png | e1] |] |];
      try discriminate;
      destruct (isinstance_Exception e1) eqn:He; try discriminate;
      intros H; inversion H; subst; assumption.
Qed.

(** C7, counterexample: a callback that raises [SystemExit]. The exception
    leaves [renderEncoded] and [compositeEncoded], and no trace is printed. *)
Lemma encoded_SystemExit_propagates :
  TileRender.renderEncoded sample_decoder
    {| TileRender.render_function := exiting_callback |} [Byte.x0a] [] =
    (Raise (SystemExit 1), []) /\
  TileCompositer.compositeEncoded sample_decoder
    {| TileCompositer.composite_function := exiting_callback |} [[Byte.x0a]; [Byte.x0b]] [] =
    (Raise (SystemExit 1), []).
Proof. split; reflexivity. Qed.

(** C7, amended: an exception that is an instance of [Exception], raised
    while the tile bytes are decoded, while the callback runs or while the
    image is saved, is caught: its trace is printed and the method returns
    [None]. *)
Theorem encoded_Exception_caught (dec : bytes -> outcome Tile) (log : stderr) (e : exn) :
  isinstance_Exception e = true ->
  (forall (self : TileRender.t) (scala_array : bytes),
     dec scala_array = Raise e \/
     (exists tile, dec scala_array = Return tile /\
        (TileRender.render_function self (ArgCells (cells tile)) = Raise e \/
         exists image,
           TileRender.render_function self (ArgCells (cells tile)) = Return image /\
           save image "PNG" = Raise e)) ->
     TileRender.renderEncoded dec self scala_array log = (Return None, log ++ [e])) /\
  (forall (self : TileCompositer.t) (all_scala_arrays : list bytes),
     decode_all dec all_scala_arrays = Raise e \/
     (exists cs, decode_all dec all_scala_arrays = Return cs /\
        (TileCompositer.composite_function self (ArgList cs) = Raise e \/
         exists image,
           TileCompositer.composite_function self (ArgList cs) = Return image /\
           save image "PNG" = Raise e)) ->
     TileCompositer.compositeEncoded dec self all_scala_arrays log =
       (Return None, log ++ [e])).
Proof.
  intros He. split.
  - intros self a H. rewrite renderEncoded_unfold. cbv zeta.
    destruct H as [-> | [tile [-> [-> | [image [-> ->]]]]]]; now rewrite He.
  - intros self a H. rewrite compositeEncoded_unfold. cbv zeta.
    destruct H as [-> | [cs [-> [-> | [image [-> ->]]]]]]; now rewrite He.
Qed.

Lemma encoded_Exception_caught_witness :
  TileRender.renderEncoded sample_decoder
    {| TileRender.render_function := failing_callback |} [Byte.x0a] [] =
    (Return None, [UserError "bad cells"]) /\
  TileCompositer.compositeEncoded sample_decoder
    {| TileCompositer.composite_function := good_callback |} [[Byte.x0a]; []] [] =
    (Return None, [UserError "Error parsing message"]).
Proof.
  split.
  - apply (proj1 (encoded_Exception_caught sample_decoder [] (UserError "bad cells")
                    eq_refl)).
    right. eexists. split; [reflexivity |]. left. reflexivity.
  - apply (proj2 (encoded_Exception_caught sample_decoder []
                    (UserError "Error parsing message") eq_refl)).
    left. reflexivity.
Defined.

Example renderEncoded_success :
  TileRender.renderEncoded sample_decoder
    {| TileRender.render_function := good_callback |} [Byte.x0a] [] =
    (Return (Some [Byte.x89; Byte.x50; Byte.x4e; Byte.x47]), []).
Proof. reflexivity. Qed.

(** ** Further properties of render.py *)

Lemma getitem_Return_In {A} (l : list A) (i : Z) (x : A) :
  getitem l i = Return x -> In x l.
Proof.
  unfold getitem. destruct (_ || _); [discriminate |].
  destruct (l !! _) as [y |] eqn:Hy; [| discriminate].
  intros H. inversion H; subst.
  apply list_elem_of_In. eapply list_elem_of_lookup_2. exact Hy.
Qed.

Lemma getitem_Raise {A} (l : list A) (i : Z) (e : exn) :
  getitem l i = Raise e -> e = IndexError "list index out of range".
Proof.
  unfold getitem. destruct (_ || _).
  - intros H. now inversion H.
  - destruct (l !! _); [discriminate |]. intros H. now inversion H.
Qed.

(** X1: [lookup] sends the engine at most one query, and only for the
    requested key on one of the levels the object holds. A failure of the
    level selection is raised before any query: [TypeError] when a zoom is
    given and [max_zoom] is [None], [IndexError] when the index names no
    rendered level or no metadata entry. When [lookup] returns, exactly one
    query was sent and the result is the list of the queried level for the
    key. *)
Theorem lookup_queries_at_most_once (self : PngRDD.t) (col row : Z)
  (zoom : option Z) (t : trace) :
  (snd (PngRDD.lookup self col row zoom t) = t \/
   exists png, In png (PngRDD.pngpyramid self) /\
     snd (PngRDD.lookup self col row zoom t) = t ++ [EvLookup (png_handle png) col row]) /\
  (forall images, fst (PngRDD.lookup self col row zoom t) = Return images ->
     exists png, In png (PngRDD.pngpyramid self) /\
       images = png_tiles png col row /\
       snd (PngRDD.lookup self col row zoom t) = t ++ [EvLookup (png_handle png) col row]) /\
  (forall z, truthy zoom = Some z -> PngRDD.max_zoom self = None ->
     PngRDD.lookup self col row zoom t =
       (Raise (TypeError "unsupported operand type(s) for -"), t)) /\
  (forall idx e, PngRDD.level_index self zoom = Return idx ->
     getitem (PngRDD.pngpyramid self) idx = Raise e ->
     PngRDD.lookup self col row zoom t = (Raise (IndexError "list index out of range"), t)) /\
  (forall idx png e, PngRDD.level_index self zoom = Return idx ->
     getitem (PngRDD.pngpyramid self) idx = Return png ->
     getitem (PngRDD.layer_metadata self) idx = Raise e ->
     PngRDD.lookup self col row zoom t = (Raise (IndexError "list index out of range"), t)).
Proof.
  assert (Hshape :
    match PngRDD.lookup self col row zoom t with
    | (Return images, t') =>
        exists png, In png (PngRDD.pngpyramid self) /\
          images = png_tiles png col row /\
          t' = t ++ [EvLookup (png_handle png) col row]
    | (Raise e, t') => t' = t
    end).
  { destruct (PngRDD.level_index self zoom) as [idx | e] eqn:Hidx.
    - destruct (getitem (PngRDD.pngpyramid self) idx) as [png | e] eqn:Hpng.
      + destruct (getitem (PngRDD.layer_metadata self) idx) as [md | e] eqn:Hmd.
        * rewrite (lookup_at_level _ _ _ _ _ col row t Hidx Hpng Hmd).
          destruct (_ || _); [reflexivity |].
          destruct (_ || _); [reflexivity |].
          exists png. split; [| split; reflexivity].
          eapply getitem_Return_In. exact Hpng.
        * unfold PngRDD.lookup, bind, lift. now rewrite Hidx, Hpng, Hmd.
      + unfold PngRDD.lookup, bind, lift. now rewrite Hidx, Hpng.
    - unfold PngRDD.lookup, bind, lift. now rewrite Hidx. }
  split; [| split; [| split; [| split]]].
  - destruct (PngRDD.lookup self col row zoom t) as [[images | e] t']; simpl.
    + destruct Hshape as (png & Hin & _ & Ht). right. eauto.
    + now left.
  - intros images Hret.
    destruct (PngRDD.lookup self col row zoom t) as [[images' | e] t']; simpl in *;
      [| discriminate].
    inversion Hret; subst. exact Hshape.
  - intros z Hz Hmax. unfold PngRDD.lookup, bind, lift, PngRDD.level_index.
    now rewrite Hz, Hmax.
  - intros idx e Hidx Hpng. unfold PngRDD.lookup, bind, lift.
    rewrite Hidx, Hpng. apply getitem_Raise in Hpng. now subst.
  - intros idx png e Hidx Hpng Hmd. unfold PngRDD.lookup, bind, lift.
    rewrite Hidx, Hpng, Hmd. apply getitem_Raise in Hmd. now subst.
Qed.

Lemma lookup_queries_at_most_once_witness :
  PngRDD.lookup scenario_A 0 0 (Some 12) [] =
    (Raise (IndexError "list index out of range"), []) /\
  exists png, In png (PngRDD.pngpyramid scenario_A) /\
    [[Byte.x89; Byte.x50; Byte.x4e; Byte.x47; Byte.x04]] = png_tiles png 1 1 /\
    snd (PngRDD.lookup scenario_A 1 1 (Some 4) []) = [] ++ [EvLookup (png_handle png) 1 1].
Proof.
  split.
  - apply (proj1 (proj2 (proj2 (proj2 (lookup_queries_at_most_once scenario_A 0 0
                                          (Some 12) []))))
             (-7) (IndexError "list index out of range")); reflexivity.
  - apply (proj1 (proj2 (lookup_queries_at_most_once scenario_A 1 1 (Some 4) []))).
    reflexivity.
Defined.

(** X2: with a recognised resampling method and a start zoom [z] settled
    (supplied and not 0, or else the non-zero zoom of the reprojected
    layer), [makePyramid] reprojects the source into EPSG:3857, asks the
    reprojected layer for the pyramid from [z] to [end_zoom] and renders
    every level in order with the ramp, before the constructor fails. A
    pyramid with no level fails at [pyramid[0]] with nothing rendered. *)
Theorem makePyramid_engine_calls (E : Engine) (tiledrdd : TiledRasterRDD.t)
  (ramp_name : string) (start_zoom : option Z) (z end_zoom : Z)
  (resample_method persist_mode : string) (debug : bool) (t : trace) :
  In resample_method (RESAMPLE_METHODS E) ->
  truthy start_zoom = Some z \/
  (truthy start_zoom = None /\
   truthy (TiledRasterRDD.zoom_level (reproject E tiledrdd "EPSG:3857" (ZOOM E))) = Some z) ->
  let reprojected := reproject E tiledrdd "EPSG:3857" (ZOOM E) in
  let levels := pyramid E reprojected z end_zoom resample_method in
  PngRDD.makePyramid E tiledrdd ramp_name start_zoom end_zoom resample_method
    persist_mode debug t =
  (Raise (match levels with
          | [] => IndexError "list index out of range"
          | _ :: _ => NameError "set_persist"
          end),
   t ++ [EvReproject (TiledRasterRDD.srdd tiledrdd) "EPSG:3857" (ZOOM E);
         EvPyramid (TiledRasterRDD.srdd reprojected) z end_zoom resample_method]
     ++ map (fun layer => EvAsSingleband (TiledRasterRDD.srdd layer) ramp_name) levels).
Proof.
  intros Hin Hz reprojected levels. apply contains_str_In in Hin.
  assert (Hcall :
    PngRDD.makePyramid E tiledrdd ramp_name start_zoom end_zoom resample_method
      persist_mode debug t =
    pyramid_from E tiledrdd ramp_name z end_zoom resample_method persist_mode debug t).
  { unfold PngRDD.makePyramid, pyramid_from. rewrite Hin. cbn [negb].
    unfold bind at 1. unfold emit, modify. cbv iota beta.
    unfold bind at 1.
    destruct Hz as [-> | [-> ->]];
      unfold ret at 1; cbv iota beta; unfold bind at 1; cbv iota beta;
      now rewrite <- app_assoc. }
  rewrite Hcall. unfold pyramid_from. rewrite init_raises.
  fold reprojected. fold levels.
  destruct levels as [| level0 rest]; simpl; rewrite <- ?app_assoc; reflexivity.
Qed.

Lemma makePyramid_engine_calls_witness :
  PngRDD.makePyramid spec_engine (sample_layer (Some 5)) "hot" (Some 1) 0
    "Bilinear" "NONE" false [] =
  (Raise (NameError "set_persist"),
   [EvReproject 100%N "EPSG:3857" "zoom"; EvPyramid 100%N 1 0 "Bilinear";
    EvAsSingleband 102%N "hot"; EvAsSingleband 101%N "hot"]) /\
  PngRDD.makePyramid spec_engine (sample_layer (Some 5)) "hot" (Some 1) 2
    "Bilinear" "NONE" false [] =
  (Raise (IndexError "list index out of range"),
   [EvReproject 100%N "EPSG:3857" "zoom"; EvPyramid 100%N 1 2 "Bilinear"]).
Proof.
  split.
  - apply (makePyramid_engine_calls spec_engine (sample_layer (Some 5)) "hot"
             (Some 1) 1 0 "Bilinear" "NONE" false []).
    + apply contains_str_In. reflexivity.
    + left. reflexivity.
  - apply (makePyramid_engine_calls spec_engine (sample_layer (Some 5)) "hot"
             (Some 1) 1 2 "Bilinear" "NONE" false []).
    + apply contains_str_In. reflexivity.
    + left. reflexivity.
Defined.

(** X3: with a recognised method, when the start zoom is omitted or 0 and
    the reprojected layer's zoom is missing or 0, [makePyramid] raises
    [AttributeError], and it does so after the reprojection: that is the one
    engine call made. *)
Theorem makePyramid_no_start_zoom (E : Engine) (tiledrdd : TiledRasterRDD.t)
  (ramp_name : string) (start_zoom : option Z) (end_zoom : Z)
  (resample_method persist_mode : string) (debug : bool) (t : trace) :
  In resample_method (RESAMPLE_METHODS E) ->
  truthy start_zoom = None ->
  truthy (TiledRasterRDD.zoom_level (reproject E tiledrdd "EPSG:3857" (ZOOM E))) = None ->
  PngRDD.makePyramid E tiledrdd ramp_name start_zoom end_zoom resample_method
    persist_mode debug t =
  (Raise (AttributeError
     "No initial zoom level is available; Please provide a value for start_zoom"),
   t ++ [EvReproject (TiledRasterRDD.srdd tiledrdd) "EPSG:3857" (ZOOM E)]).
Proof.
  intros Hin Hs Hl. apply contains_str_In in Hin.
  unfold PngRDD.makePyramid. rewrite Hin. cbn [negb].
  unfold bind at 1. unfold emit, modify. cbv iota beta.
  unfold bind at 1. now rewrite Hs, Hl.
Qed.

Lemma makePyramid_no_start_zoom_witness :
  PngRDD.makePyramid spec_engine (sample_layer (Some 0)) "hot" None 0
    "NearestNeighbor" "NONE" false [] =
  (Raise (AttributeError
     "No initial zoom level is available; Please provide a value for start_zoom"),
   [EvReproject 100%N "EPSG:3857" "zoom"]).
Proof.
  apply (makePyramid_no_start_zoom spec_engine (sample_layer (Some 0)) "hot" None 0
           "NearestNeighbor" "NONE" false []).
  - apply contains_str_In. reflexivity.
  - reflexivity.
  - reflexivity.
Defined.

(** X4: on an object with the attributes [__init__] assigns, [set_persist]
    raises [AttributeError] for every storage mode: it iterates
    [self.pyramid], which no assignment creates. No level's persistence
    mode is set and [persisted] is not assigned. *)
Theorem set_persist_raises (self : PngRDD.t) (storage_mode : string) (s : Persist.state) :
  Persist.set_persist self storage_mode s = (Raise (AttributeError "pyramid"), s).
Proof. reflexivity. Qed.

(** ** Further properties of the [TMS] life cycle *)

Lemma hd_filter_cases (f : string -> bool) (d : string) (l : list string) :
  (In (hd d (List.filter f l)) l /\ f (hd d (List.filter f l)) = true) \/
  (hd d (List.filter f l) = d /\ forall x, In x l -> f x = false).
Proof.
  destruct (List.filter f l) as [| x rest] eqn:Hf.
  - right. split; [reflexivity |]. intros x Hx.
    destruct (f x) eqn:Hfx; [| reflexivity].
    assert (Hin : In x (List.filter f l)) by (apply filter_In; auto).
    rewrite Hf in Hin. destruct Hin.
  - left. simpl. apply filter_In. rewrite Hf. now left.
Qed.

(** X5: when [bind] returns, the JVM server has bound and reported a port,
    the flag is set, the port is the reported one, and the recorded host is
    an address of the host name outside 127.0.0.0/8, or, when the host name
    has no such address, the local address of the UDP socket. The host
    passed to [bind] is not what is recorded; the handshake and the server
    handle are kept. *)
Theorem bind_records_discovered_host (net : Net) (host : string)
  (requested_port : option Z) (self : TMS.t) :
  fst (TMS.bind net host requested_port self) = Return tt ->
  exists port ips sockname h,
    server_bind net host (truthy requested_port) = Return tt /\
    server_port net = Return port /\
    gethostbyname_ex net = Return ips /\
    udp_getsockname net = Return sockname /\
    snd (TMS.bind net host requested_port self) =
      {| TMS.server := TMS.server self; TMS.handshake := TMS.handshake self;
         TMS.bound := true; TMS._host := Some h; TMS._port := Some port |} /\
    ((In h ips /\ startswith "127." h = false) \/
     (h = sockname /\ forall ip, In ip ips -> startswith "127." ip = true)).
Proof.
  rewrite bind_unfold.
  destruct (server_bind net host (truthy requested_port)) as [[] | e1]; [| discriminate].
  cbv zeta. destruct (server_port net) as [port | e2]; [| discriminate].
  rewrite discover_host_unfold.
  destruct (gethostbyname_ex net) as [ips | e3]; [| discriminate].
  destruct (udp_getsockname net) as [sockname | e4]; [| discriminate].
  intros _. exists port, ips, sockname.
  exists (hd sockname (List.filter (fun ip => negb (startswith "127." ip)) ips)).
  repeat split.
  destruct (hd_filter_cases (fun ip => negb (startswith "127." ip)) sockname ips)
    as [[Hin Hf] | [Hd Hall]].
  - left. split; [assumption |]. now apply negb_true_iff in Hf.
  - right. split; [assumption |]. intros ip Hip.
    specialize (Hall ip Hip). now apply negb_false_iff in Hall.
Qed.

Lemma bind_records_discovered_host_witness :
  exists port ips sockname h,
    server_bind net_ok "0.0.0.0" (truthy (Some 8080)) = Return tt /\
    server_port net_ok = Return port /\
    gethostbyname_ex net_ok = Return ips /\
    udp_getsockname net_ok = Return sockname /\
    snd (TMS.bind net_ok "0.0.0.0" (Some 8080) (TMS.__init__ sample_server)) =
      {| TMS.server := sample_server; TMS.handshake := EmptyString;
         TMS.bound := true; TMS._host := Some h; TMS._port := Some port |} /\
    ((In h ips /\ startswith "127." h = false) \/
     (h = sockname /\ forall ip, In ip ips -> startswith "127." ip = true)).
Proof.
  exact (bind_records_discovered_host net_ok "0.0.0.0" (Some 8080)
           (TMS.__init__ sample_server) eq_refl).
Defined.

(** X6: after a [bind] in which every step succeeds, [url_pattern] returns
    the address of the discovered host and the port the server reported,
    followed by the tile path; the host passed to [bind] does not occur in
    it. *)
Theorem bind_then_url_pattern (net : Net) (host : string) (requested_port : option Z)
  (self : TMS.t) (port : Z) (ips : list string) (sockname : string) :
  server_bind net host (truthy requested_port) = Return tt ->
  server_port net = Return port ->
  gethostbyname_ex net = Return ips ->
  udp_getsockname net = Return sockname ->
  let h := hd sockname (List.filter (fun ip => negb (startswith "127." ip)) ips) in
  (TMS.bind net host requested_port ;; TMS.url_pattern) self =
    (Return ("http://" +:+ h +:+ ":" +:+ str_int port +:+ "/tile/{z}/{x}/{y}.png"),
     {| TMS.server := TMS.server self; TMS.handshake := TMS.handshake self;
        TMS.bound := true; TMS._host := Some h; TMS._port := Some port |}).
Proof.
  intros Hb Hp Hi Hu h. unfold bind at 1.
  rewrite (bind_success _ _ _ _ _ _ _ Hb Hp Hi Hu).
  now rewrite url_pattern_bound.
Qed.

Lemma bind_then_url_pattern_witness :
  (TMS.bind net_ok "0.0.0.0" (Some 8080) ;; TMS.url_pattern) (TMS.__init__ sample_server) =
    (Return "http://192.168.1.5:8080/tile/{z}/{x}/{y}.png",
     {| TMS.server := sample_server; TMS.handshake := EmptyString;
        TMS.bound := true; TMS._host := Some "192.168.1.5"; TMS._port := Some 8080 |}).
Proof.
  exact (bind_then_url_pattern net_ok "0.0.0.0" (Some 8080) (TMS.__init__ sample_server)
           8080 ["127.0.1.1"] "192.168.1.5" eq_refl eq_refl eq_refl eq_refl).
Defined.

(** X7: [unbind] with a JVM server that unbinds resets the host and the
    port to [None] and keeps the flag, the handshake and the server handle;
    a second [unbind] changes nothing more. When the JVM server's [unbind]
    raises, that exception leaves [unbind] as it is and the host and the
    port are not reset. *)
Theorem unbind_outcomes (net : Net) (self : TMS.t) :
  match server_unbind net with
  | Return _ =>
      TMS.unbind net self =
        (Return tt,
         {| TMS.server := TMS.server self; TMS.handshake := TMS.handshake self;
            TMS.bound := TMS.bound self; TMS._host := None; TMS._port := None |}) /\
      (TMS.unbind net ;; TMS.unbind net) self = TMS.unbind net self
  | Raise e => TMS.unbind net self = (Raise e, self)
  end.
Proof.
  unfold TMS.unbind, bind, lift, modify.
  destruct (server_unbind net) as [[] | e]; [split |]; reflexivity.
Qed.

(** X8: binding again after an [unbind] gives the state of the first bind:
    a successful [bind] overwrites the flag, the port and the host, whatever
    they were. *)
Theorem rebind_after_unbind (net : Net) (host : string) (requested_port : option Z)
  (self : TMS.t) :
  fst (TMS.bind net host requested_port self) = Return tt ->
  server_unbind net = Return tt ->
  (TMS.bind net host requested_port ;; TMS.unbind net ;;
   TMS.bind net host requested_port) self =
  TMS.bind net host requested_port self.
Proof.
  intros Hok Hu. rewrite bind_unfold in Hok.
  destruct (server_bind net host (truthy requested_port)) as [[] | e1] eqn:Hb;
    [| discriminate].
  cbv zeta in Hok. destruct (server_port net) as [port | e2] eqn:Hp; [| discriminate].
  rewrite discover_host_unfold in Hok.
  destruct (gethostbyname_ex net) as [ips | e3] eqn:Hi; [| discriminate].
  destruct (udp_getsockname net) as [sockname | e4] eqn:Hs; [| discriminate].
  clear Hok. unfold bind at 1. rewrite (bind_success _ _ _ self _ _ _ Hb Hp Hi Hs).
  unfold bind at 1. unfold TMS.unbind, bind, lift, modify. rewrite Hu.
  cbv iota beta. now rewrite (bind_success _ _ _ _ _ _ _ Hb Hp Hi Hs).
Qed.

Lemma rebind_after_unbind_witness :
  (TMS.bind net_ok "0.0.0.0" None ;; TMS.unbind net_ok ;; TMS.bind net_ok "0.0.0.0" None)
    (TMS.__init__ sample_server) =
  TMS.bind net_ok "0.0.0.0" None (TMS.__init__ sample_server).
Proof.
  exact (rebind_after_unbind net_ok "0.0.0.0" None (TMS.__init__ sample_server)
           eq_refl eq_refl).
Defined.

(** X9: on a server that was never bound, a [bind] whose JVM bind fails
    raises a [RuntimeError] that names neither the requested host nor the
    requested port: with a port (other than 0) its message is built from the
    unset host and port of the object, and without one its argument is the
    unset host itself. *)
Theorem bind_failure_message (net : Net) (host : string) (requested_port : option Z)
  (server : JServer) (e : exn) :
  server_bind net host (truthy requested_port) = Raise e ->
  TMS.bind net host requested_port (TMS.__init__ server) =
    (Raise (RuntimeError
              match truthy requested_port with
              | Some _ => Some "Error binding to None on port None"
              | None => None
              end),
     TMS.__init__ server).
Proof.
  intros Hb. rewrite bind_unfold, Hb. unfold TMS.bind_error_arg.
  destruct (truthy requested_port); reflexivity.
Qed.

Lemma bind_failure_message_witness :
  TMS.bind net_bind_fails "10.0.0.7" (Some 9000) (TMS.__init__ sample_server) =
    (Raise (RuntimeError (Some "Error binding to None on port None")),
     TMS.__init__ sample_server).
Proof.
  exact (bind_failure_message net_bind_fails "10.0.0.7" (Some 9000) sample_server
           (Py4JError "Address already in use") eq_refl).
Defined.

(** ** Further properties of [TMS.build] *)

Lemma getitem_tuple_first {A} (x : A) (l : list A) :
  getitem_tuple (x :: l) 0 = Return x.
Proof.
  unfold getitem_tuple. rewrite (getitem_nonneg (x :: l) 0 x); [reflexivity | lia |].
  reflexivity.
Qed.

Lemma getitem_tuple_second {A} (x y : A) (l : list A) :
  getitem_tuple (x :: y :: l) 1 = Return y.
Proof.
  unfold getitem_tuple. rewrite (getitem_nonneg (x :: y :: l) 1 y); [reflexivity | lia |].
  reflexivity.
Qed.

(** X10: [makeReader] on every argument. A [Pyramid] gives a reader over
    the handles of its levels under the same zooms. A tuple whose first two
    items are strings gives a catalog reader of those two, whatever follows
    them. The empty tuple and a tuple that holds one string only raise
    [IndexError], from [arg[0]] and [arg[1]]. Every other argument raises
    the [ValueError] of the function. *)
Theorem makeReader_cases :
  (forall p,
     TMS.makeReader (PPyramid p) =
       Return (createSpatialRddReader (TiledRasterRDD.srdd <$> levels p)) /\
     forall z, (TiledRasterRDD.srdd <$> levels p) !! z =
               TiledRasterRDD.srdd <$> (levels p !! z)) /\
  (forall uri layer_name rest,
     TMS.makeReader (PTuple (PStr uri :: PStr layer_name :: rest)) =
       Return (createCatalogReader uri layer_name)) /\
  TMS.makeReader (PTuple []) = Raise (IndexError "tuple index out of range") /\
  (forall uri,
     TMS.makeReader (PTuple [PStr uri]) = Raise (IndexError "tuple index out of range")) /\
  (forall arg,
     (forall p, arg <> PPyramid p) ->
     (forall uri layer_name rest, arg <> PTuple (PStr uri :: PStr layer_name :: rest)) ->
     arg <> PTuple [] ->
     (forall uri, arg <> PTuple [PStr uri]) ->
     TMS.makeReader arg =
       Raise (ValueError ["Arguments must be of type Pyramid or (string, string)"])).
Proof.
  split; [| split; [| split; [| split]]].
  - intros p. split; [reflexivity |]. intros z. apply lookup_fmap.
  - intros uri layer_name rest. unfold TMS.makeReader.
    rewrite getitem_tuple_first. cbn [TMS.isinstance_str].
    now rewrite getitem_tuple_second.
  - reflexivity.
  - reflexivity.
  - intros arg Hp Ht He Hs.
    destruct arg as [| z | s | items | items | p]; try reflexivity.
    + destruct items as [| a rest]; [contradiction |].
      unfold TMS.makeReader. rewrite getitem_tuple_first.
      destruct a as [| z | uri | i | i | p]; try reflexivity.
      destruct rest as [| b rest]; [now contradiction (Hs uri) |].
      cbn [TMS.isinstance_str]. rewrite getitem_tuple_second.
      destruct b as [| z | layer_name | i | i | p]; try reflexivity.
      now contradiction (Ht uri layer_name rest).
    + now contradiction (Hp p).
Qed.

Lemma makeReader_cases_witness :
  TMS.makeReader (PTuple [PInt 3857; PStr "elevation"]) =
    Raise (ValueError ["Arguments must be of type Pyramid or (string, string)"]) /\
  TMS.makeReader (PTuple [PStr "s3://catalog"; PStr "elevation"; PInt 3]) =
    Return (createCatalogReader "s3://catalog" "elevation") /\
  TMS.makeReader (PTuple [PStr "s3://catalog"]) =
    Raise (IndexError "tuple index out of range").
Proof.
  split; [| split].
  - apply (proj2 (proj2 (proj2 (proj2 makeReader_cases)))); intros; discriminate.
  - apply (proj1 (proj2 makeReader_cases)).
  - apply (proj1 (proj2 (proj2 (proj2 makeReader_cases)))).
Defined.

(** [makeReaders] returns one reader per source, in the order of the
    sources. *)
Lemma makeReaders_Forall2 (sources : list PyVal) (readers : list Reader) :
  TMS.makeReaders sources = Return readers <->
  Forall2 (fun arg reader => TMS.makeReader arg = Return reader) sources readers.
Proof.
  revert readers. induction sources as [| arg rest IH]; intros readers; simpl.
  - split.
    + intros H. inversion H; subst. constructor.
    + intros H. inversion H; subst. reflexivity.
  - split.
    + destruct (TMS.makeReader arg) as [r | e] eqn:Hr; [| discriminate].
      destruct (TMS.makeReaders rest) as [rs | e]; [| discriminate].
      intros H. inversion H; subst. constructor; [assumption |]. now apply IH.
    + intros H. inversion H as [| a r l rs Hr Hrest]; subst.
      rewrite Hr. apply IH in Hrest. now rewrite Hrest.
Qed.

(** [makeReaders] stops at the first source that is refused. *)
Lemma makeReaders_first_failure (accepted : list PyVal) (arg : PyVal)
  (rest : list PyVal) (e : exn) :
  Forall (fun a => exists reader, TMS.makeReader a = Return reader) accepted ->
  TMS.makeReader arg = Raise e ->
  TMS.makeReaders (accepted ++ arg :: rest) = Raise e.
Proof.
  intros Hacc He. induction Hacc as [| a l [r Hr] _ IH]; simpl.
  - now rewrite He.
  - now rewrite Hr, IH.
Qed.

(** X11: with a callable display and a list of sources that is not a
    one-element list, [build] makes a compositing route over one reader per
    source, in the order of the sources, when every source is accepted; and
    it raises the exception of the first refused source otherwise, whatever
    follows it. The empty list gives a compositing route with no reader. *)
Theorem build_composite (f : Callable) (sources : list PyVal) :
  length sources <> 1%nat ->
  (forall readers,
     Forall2 (fun arg reader => TMS.makeReader arg = Return reader) sources readers ->
     TMS.build (PList sources) (DCallable f) =
       Return (TMS.__init__ (createServer
                 (compositingTileRoute readers
                    {| TileCompositer.composite_function := f |})))) /\
  (forall accepted arg rest e,
     sources = accepted ++ arg :: rest ->
     Forall (fun a => exists reader, TMS.makeReader a = Return reader) accepted ->
     TMS.makeReader arg = Raise e ->
     TMS.build (PList sources) (DCallable f) = Raise e).
Proof.
  intros Hlen.
  assert (Hb : TMS.build (PList sources) (DCallable f) =
               match TMS.makeReaders sources with
               | Raise e => Raise e
               | Return readers =>
                   Return (TMS.__init__ (createServer
                             (compositingTileRoute readers
                                {| TileCompositer.composite_function := f |})))
               end).
  { unfold TMS.build. destruct sources as [| a [| b rest]]; simpl in *;
      try contradiction; try reflexivity;
      destruct (TMS.makeReader a); try reflexivity;
      destruct (TMS.makeReader b); try reflexivity;
      destruct (TMS.makeReaders rest); reflexivity. }
  split.
  - intros readers Hall. rewrite Hb. apply makeReaders_Forall2 in Hall.
    now rewrite Hall.
  - intros accepted arg rest e -> Hacc He. rewrite Hb.
    now rewrite (makeReaders_first_failure _ _ _ _ Hacc He).
Qed.

Lemma build_composite_witness :
  TMS.build (PList [catalog_source; PPyramid sample_pyramid]) (DCallable good_callback) =
    Return (TMS.__init__ (createServer
              (compositingTileRoute
                 [createCatalogReader "s3://catalog" "elevation";
                  createSpatialRddReader (TiledRasterRDD.srdd <$> levels sample_pyramid)]
                 {| TileCompositer.composite_function := good_callback |}))) /\
  TMS.build (PList [catalog_source; PTuple [PStr "s3://catalog"]; PNone])
    (DCallable good_callback) = Raise (IndexError "tuple index out of range").
Proof.
  split.
  - apply (proj1 (build_composite good_callback [catalog_source; PPyramid sample_pyramid]
                    ltac:(discriminate))).
    repeat constructor.
  - apply (proj2 (build_composite good_callback
                    [catalog_source; PTuple [PStr "s3://catalog"]; PNone]
                    ltac:(discriminate))
             [catalog_source] (PTuple [PStr "s3://catalog"]) [PNone]).
    + reflexivity.
    + repeat constructor. eexists. reflexivity.
    + reflexivity.
Defined.

(** X12: a server that [build] returns is unbound: its flag is unset, its
    host and port are [None], its handshake is empty, and [url_pattern]
    raises on it. *)
Theorem build_returns_unbound (source : PyVal) (display : Display) (tms : TMS.t) :
  TMS.build source display = Return tms ->
  tms = TMS.__init__ (TMS.server tms) /\
  TMS.host tms = None /\ TMS.port tms = None /\
  TMS.url_pattern tms =
    (Raise (ValueError ["Cannot generate URL for unbound TMS server"]), tms).
Proof.
  unfold TMS.build. cbv zeta.
  destruct (match display with
            | DColorMap _ => _ | DCallable _ => _ | DOther => _
            end) as [route | e]; [| discriminate].
  intros H. inversion H; subst. repeat split.
Qed.

Lemma build_returns_unbound_witness :
  TMS.__init__ sample_server = TMS.__init__ (TMS.server (TMS.__init__ sample_server)) /\
  TMS.host (TMS.__init__ sample_server) = None /\
  TMS.port (TMS.__init__ sample_server) = None /\
  TMS.url_pattern (TMS.__init__ sample_server) =
    (Raise (ValueError ["Cannot generate URL for unbound TMS server"]),
     TMS.__init__ sample_server).
Proof.
  exact (build_returns_unbound catalog_source (DColorMap 7) (TMS.__init__ sample_server)
           eq_refl).
Defined.

(** X13: which argument error [build] raises. A display that is neither a
    [ColorMap] nor a callable gives the display [ValueError] whatever the
    source is. A [ColorMap] with a list that does not hold exactly one
    source, the empty list included, gives the single-source [ValueError]
    whatever the list holds. A source outside a list that [makeReader]
    refuses, alone or as the one element of a list, makes [build] raise
    [makeReader]'s exception, with a [ColorMap] and with a callable. *)
Theorem build_argument_errors :
  (forall source,
     TMS.build source DOther =
       Raise (ValueError ["Display method must be callable or a ColorMap"])) /\
  (forall cmap items, length items <> 1%nat ->
     TMS.build (PList items) (DColorMap cmap) =
       Raise (ValueError ["May only apply color maps to a single input source"])) /\
  (forall display source e,
     display <> DOther -> TMS.isinstance_list source = None ->
     TMS.makeReader source = Raise e ->
     TMS.build source display = Raise e /\
     TMS.build (PList [source]) display = Raise e).
Proof.
  split; [| split].
  - intros source. unfold TMS.build. reflexivity.
  - intros cmap items Hlen. destruct items as [| a [| b rest]]; simpl in Hlen;
      try contradiction; reflexivity.
  - intros display source e Hd Hl Hr.
    assert (Hb : TMS.build source display = Raise e).
    { unfold TMS.build. cbv zeta.
      destruct source; try discriminate;
        (destruct display as [cmap | f |]; [| | contradiction];
         cbv beta iota; rewrite ?Hl, Hr; reflexivity). }
    split; [exact Hb |].
    now rewrite build_singleton_unwrapped.
Qed.

Lemma build_argument_errors_witness :
  TMS.build (PList []) (DColorMap 7) =
    Raise (ValueError ["May only apply color maps to a single input source"]) /\
  TMS.build (PTuple [PStr "s3://catalog"]) (DCallable good_callback) =
    Raise (IndexError "tuple index out of range") /\
  TMS.build (PList [PInt 5]) (DColorMap 7) =
    Raise (ValueError ["Arguments must be of type Pyramid or (string, string)"]).
Proof.
  split; [| split].
  - apply (proj1 (proj2 build_argument_errors)). discriminate.
  - apply (proj2 (proj2 build_argument_errors) (DCallable good_callback)
             (PTuple [PStr "s3://catalog"]));
      [discriminate | reflexivity | reflexivity].
  - apply (proj2 (proj2 build_argument_errors) (DColorMap 7) (PInt 5));
      [discriminate | reflexivity | reflexivity].
Defined.

(** X14: only one level of list is unwrapped. For a source that is accepted
    and is not a list, [[s]] with a callable gives the single-source
    rendering route, while [[[s]]] gives a compositing route over one
    reader, so that the callable receives a list of one array; and [[[s]]]
    with a [ColorMap] is refused. *)
Theorem build_nested_singleton (s : PyVal) (reader : Reader) (f : Callable) (cmap : N) :
  TMS.makeReader s = Return reader ->
  TMS.build (PList [s]) (DCallable f) =
    Return (TMS.__init__ (createServer
              (renderingTileRoute reader
                 (RenderPython {| TileRender.render_function := f |})))) /\
  TMS.build (PList [PList [s]]) (DCallable f) =
    Return (TMS.__init__ (createServer
              (compositingTileRoute [reader]
                 {| TileCompositer.composite_function := f |}))) /\
  TMS.build (PList [PList [s]]) (DColorMap cmap) =
    Raise (ValueError ["May only apply color maps to a single input source"]).
Proof.
  intros Hr.
  assert (Hl : TMS.isinstance_list s = None).
  { destruct s; try reflexivity. discriminate Hr. }
  repeat split.
  - unfold TMS.build. cbv zeta. now rewrite Hl, Hr.
  - unfold TMS.build. cbv zeta. simpl. now rewrite Hr.
Qed.

Lemma build_nested_singleton_witness :
  TMS.build (PList [catalog_source]) (DCallable good_callback) =
    Return (TMS.__init__ (createServer
              (renderingTileRoute (createCatalogReader "s3://catalog" "elevation")
                 (RenderPython {| TileRender.render_function := good_callback |})))) /\
  TMS.build (PList [PList [catalog_source]]) (DCallable good_callback) =
    Return (TMS.__init__ (createServer
              (compositingTileRoute [createCatalogReader "s3://catalog" "elevation"]
                 {| TileCompositer.composite_function := good_callback |}))) /\
  TMS.build (PList [PList [catalog_source]]) (DColorMap 7) =
    Raise (ValueError ["May only apply color maps to a single input source"]).
Proof.
  exact (build_nested_singleton catalog_source
           (createCatalogReader "s3://catalog" "elevation") good_callback 7 eq_refl).
Defined.

(** ** Further properties of the rendering callbacks *)

(** X15: [renderEncoded] returns the bytes that [image.save] wrote in the
    PNG format, with nothing printed, exactly when the decoder, the render
    function and the save all succeed. When one of the three raises, the
    others that follow are not run and that exception decides the outcome:
    an instance of [Exception] has its trace printed and [None] is returned,
    any other exception leaves the method with nothing printed. *)
Theorem renderEncoded_outcomes (dec : bytes -> outcome Tile) (self : TileRender.t)
  (scala_array : bytes) (log : stderr) :
  (forall png log',
     TileRender.renderEncoded dec self scala_array log = (Return (Some png), log') <->
     log' = log /\
     exists tile image,
       dec scala_array = Return tile /\
       TileRender.render_function self (ArgCells (cells tile)) = Return image /\
       save image "PNG" = Return png) /\
  (forall e,
     dec scala_array = Raise e \/
     (exists tile, dec scala_array = Return tile /\
        (TileRender.render_function self (ArgCells (cells tile)) = Raise e \/
         exists image,
           TileRender.render_function self (ArgCells (cells tile)) = Return image /\
           save image "PNG" = Raise e)) ->
     TileRender.renderEncoded dec self scala_array log =
       if isinstance_Exception e then (Return None, log ++ [e]) else (Raise e, log)).
Proof.
  rewrite renderEncoded_unfold. cbv zeta. split.
  - intros png log'. split.
    + destruct (dec scala_array) as [tile | e] eqn:Hd.
      * destruct (TileRender.render_function self _) as [image | e] eqn:Hf.
        -- destruct (save image "PNG") as [png' | e] eqn:Hs.
           ++ intros H. inversion H; subst. split; [reflexivity |]. eauto.
           ++ destruct (isinstance_Exception e); discriminate.
        -- destruct (isinstance_Exception e); discriminate.
      * destruct (isinstance_Exception e); discriminate.
    + intros [-> (tile & image & -> & -> & ->)]. reflexivity.
  - intros e [-> | [tile [-> [-> | [image [-> ->]]]]]]; reflexivity.
Qed.

Lemma renderEncoded_outcomes_witness :
  TileRender.renderEncoded sample_decoder
    {| TileRender.render_function := good_callback |} [Byte.x0a] [] =
    (Return (Some [Byte.x89; Byte.x50; Byte.x4e; Byte.x47]), []) /\
  TileRender.renderEncoded sample_decoder
    {| TileRender.render_function := good_callback |} [] [UserError "earlier"] =
    (Return None, [UserError "earlier"; UserError "Error parsing message"]).
Proof.
  split.
  - apply (proj1 (renderEncoded_outcomes sample_decoder
                    {| TileRender.render_function := good_callback |} [Byte.x0a] [])).
    split; [reflexivity |]. eexists. exists png_image. repeat split.
  - apply (proj2 (renderEncoded_outcomes sample_decoder
                    {| TileRender.render_function := good_callback |} []
                    [UserError "earlier"]) (UserError "Error parsing message")).
    left. reflexivity.
Defined.

(** When every array decodes, [decode_all] is the list of their cells, in
    the order of the arrays. *)
Lemma decode_all_Forall2 (dec : bytes -> outcome Tile) (arrays : list bytes)
  (cs : list Cells) :
  decode_all dec arrays = Return cs <->
  Forall2 (fun a c => exists tile, dec a = Return tile /\ c = cells tile) arrays cs.
Proof.
  revert cs. induction arrays as [| a rest IH]; intros cs; simpl.
  - split.
    + intros H. inversion H; subst. constructor.
    + intros H. inversion H; subst. reflexivity.
  - split.
    + destruct (dec a) as [tile | e] eqn:Hd; [| discriminate].
      destruct (decode_all dec rest) as [cs' | e]; [| discriminate].
      intros H. inversion H; subst. constructor; [eauto |]. now apply IH.
    + intros H. inversion H as [| x c l l' [tile [Hd ->]] Hrest]; subst.
      rewrite Hd. apply IH in Hrest. now rewrite Hrest.
Qed.

Lemma decode_all_first_failure (dec : bytes -> outcome Tile) (decoded : list bytes)
  (a : bytes) (rest : list bytes) (e : exn) :
  Forall (fun x => exists tile, dec x = Return tile) decoded ->
  dec a = Raise e ->
  decode_all dec (decoded ++ a :: rest) = Raise e.
Proof.
  intros Hdec He. induction Hdec as [| x l [tile Hx] _ IH]; simpl.
  - now rewrite He.
  - now rewrite Hx, IH.
Qed.

(** X16: [compositeEncoded] decodes every array before it calls the
    composite function. When all decode, the function receives the list of
    their cells in the order of the arrays (the empty list for no array),
    and its image, saved as PNG, is returned with nothing printed. When an
    array does not decode, the outcome is that of the first such array,
    whatever the composite function is and whatever follows the array. *)
Theorem compositeEncoded_in_order (dec : bytes -> outcome Tile) (log : stderr) :
  (forall (self : TileCompositer.t) arrays cs image png,
     Forall2 (fun a c => exists tile, dec a = Return tile /\ c = cells tile) arrays cs ->
     TileCompositer.composite_function self (ArgList cs) = Return image ->
     save image "PNG" = Return png ->
     TileCompositer.compositeEncoded dec self arrays log = (Return (Some png), log)) /\
  (forall (self : TileCompositer.t) decoded a rest e,
     Forall (fun x => exists tile, dec x = Return tile) decoded ->
     dec a = Raise e ->
     TileCompositer.compositeEncoded dec self (decoded ++ a :: rest) log =
       if isinstance_Exception e then (Return None, log ++ [e]) else (Raise e, log)).
Proof.
  split.
  - intros self arrays cs image png Hall Hf Hs.
    rewrite compositeEncoded_unfold. cbv zeta.
    apply decode_all_Forall2 in Hall. now rewrite Hall, Hf, Hs.
  - intros self decoded a rest e Hdec He.
    rewrite compositeEncoded_unfold. cbv zeta.
    now rewrite (decode_all_first_failure _ _ _ _ _ Hdec He).
Qed.

Lemma compositeEncoded_in_order_witness :
  TileCompositer.compositeEncoded sample_decoder
    {| TileCompositer.composite_function := good_callback |}
    [[Byte.x0a]; [Byte.x0b; Byte.x0c]] [] =
    (Return (Some [Byte.x89; Byte.x50; Byte.x4e; Byte.x47]), []) /\
  TileCompositer.compositeEncoded sample_decoder
    {| TileCompositer.composite_function := exiting_callback |}
    ([[Byte.x0a]] ++ [] :: [[Byte.x0b]]) [] =
    (Return None, [UserError "Error parsing message"]).
Proof.
  split.
  - apply (proj1 (compositeEncoded_in_order sample_decoder [])
             {| TileCompositer.composite_function := good_callback |}
             [[Byte.x0a]; [Byte.x0b; Byte.x0c]] [[[[1]]]; [[[2]]]] png_image).
    + repeat constructor; eexists; split; reflexivity.
    + reflexivity.
    + reflexivity.
  - apply (proj2 (compositeEncoded_in_order sample_decoder [])
             {| TileCompositer.composite_function := exiting_callback |}
             [[Byte.x0a]] [] [[Byte.x0b]] (UserError "Error parsing message")).
    + repeat constructor. eexists. reflexivity.
    + reflexivity.
Defined.

(** ** Zooms inside and outside a pyramid *)

(** X17: on a pyramid with levels at the zooms [start_zoom] down to
    [end_zoom], a zoom of that interval other than 0 selects the level at
    index [start_zoom - zoom]: a key inside that level's bounds is looked up
    in that level, and only there. *)
Theorem lookup_in_range_zoom (self : PngRDD.t) (start_zoom end_zoom zoom : Z)
  (col row : Z) (t : trace) :
  levels_at self start_zoom end_zoom ->
  end_zoom <= zoom <= start_zoom -> zoom <> 0 ->
  exists png md,
    PngRDD.pngpyramid self !! Z.to_nat (start_zoom - zoom) = Some png /\
    PngRDD.layer_metadata self !! Z.to_nat (start_zoom - zoom) = Some md /\
    (col_in_bounds md col -> row_in_bounds md row ->
     PngRDD.lookup self col row (Some zoom) t =
       (Return (png_tiles png col row), t ++ [EvLookup (png_handle png) col row])).
Proof.
  intros Hlv Hz Hnz.
  destruct (lookup_selects_level _ _ _ _ Hlv Hz Hnz)
    as (png & md & Hidx & Hpng & Hmd & Hgp & Hgm).
  exists png, md. split; [assumption | split; [assumption |]].
  intros [Hc1 Hc2] [Hr1 Hr2].
  rewrite (lookup_at_level _ _ _ _ _ col row t Hidx Hgp Hgm). rewrite !Z.gtb_ltb.
  destruct (Z.ltb_spec col (Key.col (minKey (bounds md)))); [lia |].
  destruct (Z.ltb_spec (Key.col (maxKey (bounds md))) col); [lia |].
  destruct (Z.ltb_spec row (Key.row (minKey (bounds md)))); [lia |].
  destruct (Z.ltb_spec (Key.row (maxKey (bounds md))) row); [lia |].
  reflexivity.
Qed.

Lemma lookup_in_range_zoom_witness :
  exists png md,
    PngRDD.pngpyramid scenario_A !! Z.to_nat (5 - 3) = Some png /\
    PngRDD.layer_metadata scenario_A !! Z.to_nat (5 - 3) = Some md /\
    (col_in_bounds md 0 -> row_in_bounds md 0 ->
     PngRDD.lookup scenario_A 0 0 (Some 3) [] =
       (Return (png_tiles png 0 0), [] ++ [EvLookup (png_handle png) 0 0])).
Proof.
  apply (lookup_in_range_zoom scenario_A 5 0 3 0 0 []).
  - exact scenario_A_levels.
  - split; apply Z.leb_le; reflexivity.
  - discriminate.
Defined.

(** X18: on such a pyramid, a non-zero zoom below [end_zoom], or more than
    the number of levels above [start_zoom], makes [lookup] raise
    [IndexError] for every key, with no query of the engine. *)
Theorem lookup_zoom_refused (self : PngRDD.t) (start_zoom end_zoom zoom : Z)
  (col row : Z) (t : trace) :
  levels_at self start_zoom end_zoom -> zoom <> 0 ->
  zoom < end_zoom \/ start_zoom + (start_zoom - end_zoom + 1) < zoom ->
  PngRDD.lookup self col row (Some zoom) t =
    (Raise (IndexError "list index out of range"), t).
Proof.
  intros Hlv Hnz [Hlow | Hhigh].
  - now apply (lookup_zoom_below_end self start_zoom end_zoom).
  - now apply (lookup_zoom_far_above self start_zoom end_zoom).
Qed.

Lemma lookup_zoom_refused_witness :
  PngRDD.lookup scenario_A 0 0 (Some (-1)) [] =
    (Raise (IndexError "list index out of range"), []) /\
  PngRDD.lookup scenario_A 0 0 (Some 12) [] =
    (Raise (IndexError "list index out of range"), []).
Proof.
  split.
  - apply (lookup_zoom_refused scenario_A 5 0 (-1) 0 0 []).
    + exact scenario_A_levels.
    + discriminate.
    + left. reflexivity.
  - apply (lookup_zoom_refused scenario_A 5 0 12 0 0 []).
    + exact scenario_A_levels.
    + discriminate.
    + right. reflexivity.
Defined.
